(** * Learn-NextJS dashboard: server actions and the route guard

    A shallow embedding of the two source files of the dashboard,

    - the server actions [authenticate], [createInvoice], [updateInvoice]
      and [deleteInvoice] together with the Zod schema [formSchema], and
    - the [authorized] callback of [auth.config.ts],

    with the properties the specification states about them.

    The actions are written in a small monad of server-side effects
    (the invoices table, the journal of executed SQL statements, the
    revalidated paths, thrown exceptions).  The runtime pieces the code
    calls into (JavaScript strings, numbers and dates, [FormData],
    Zod 3 schemas, the [sql] tag, [signIn], [revalidatePath] and
    [redirect]) are modelled by their documented behaviour, each in a
    module of its own below. *)

From Stdlib Require Import ZArith String Ascii List Bool Lia SpecFloat.
From stdpp Require Import base option list gmap strings.

Local Open Scope Z_scope.

(* ===================================================================== *)
(** * JavaScript strings

    A string is a sequence of 8-bit code units (the Latin-1 range of
    UTF-16); the forms the actions receive are within it. *)
(* ===================================================================== *)

Module JsString.

Definition code (c : ascii) : Z := Z.of_N (N_of_ascii c).

(** [String.prototype.startsWith(searchString)] (position 0). *)
Fixpoint startsWith (s searchString : string) {struct searchString} : bool :=
  match searchString with
  | EmptyString => true
  | String c p =>
      match s with
      | EmptyString => false
      | String d s' => if Ascii.eqb c d then startsWith s' p else false
      end
  end.

(** Scanning loop of [split]: [skip] counts the code units of a
    separator occurrence still to be passed over, [cur] is the piece
    being collected. *)
Fixpoint split_scan (sep s : string) (skip : nat) (cur : string) : list string :=
  match s with
  | EmptyString => [cur]
  | String c s' =>
      match skip with
      | S k => split_scan sep s' k cur
      | O =>
          if startsWith s sep
          then cur :: split_scan sep s' (pred (String.length sep)) EmptyString
          else split_scan sep s' O (cur +:+ String c EmptyString)
      end
  end.

Definition chars (s : string) : list string :=
  (fun c => String c EmptyString) <$> list_ascii_of_string s.

(** [String.prototype.split(separator)] with a string separator and
    no limit. *)
Definition split (s sep : string) : list string :=
  match sep with
  | EmptyString => chars s
  | _ => split_scan sep s O EmptyString
  end.

(** Membership of a code unit, used to state what [split] returns. *)
Fixpoint mentions (c : ascii) (s : string) : bool :=
  match s with
  | EmptyString => false
  | String d s' => Ascii.eqb c d || mentions c s'
  end.

(** [StrWhiteSpaceChar]: TAB, LF, VT, FF, CR, SP and NBSP. *)
Definition isWhiteSpace (c : ascii) : bool :=
  let n := code c in
  ((9 <=? n) && (n <=? 13)) || (n =? 32) || (n =? 160).

Fixpoint trimStart (s : string) : string :=
  match s with
  | EmptyString => EmptyString
  | String c s' => if isWhiteSpace c then trimStart s' else s
  end.

Fixpoint trimEnd (s : string) : string :=
  match s with
  | EmptyString => EmptyString
  | String c s' =>
      match trimEnd s' with
      | EmptyString => if isWhiteSpace c then EmptyString else String c EmptyString
      | t => String c t
      end
  end.

Definition trim (s : string) : string := trimEnd (trimStart s).

End JsString.

(* ===================================================================== *)
(** * JavaScript numbers: IEEE 754 binary64 *)
(* ===================================================================== *)

Module JsNumber.

Definition prec : Z := 53.
Definition emax : Z := 1024.

Definition number : Type := spec_float.

Definition NaN : number := S754_nan.
Definition Infinity (negative : bool) : number := S754_infinity negative.
Definition zero (negative : bool) : number := S754_zero negative.

(** The Number value for the integer [n]. *)
Definition ofZ (n : Z) : number := binary_normalize prec emax n 0 false.

(** The Number value for [m * 10^e] with [m >= 0], rounded to nearest,
    ties to even; [negative] is the sign of the literal. *)
Definition ofDecimal (negative : bool) (m e : Z) : number :=
  match m with
  | Zpos p =>
      match e with
      | Zneg k =>
          SFdiv prec emax (S754_finite negative p 0)
                          (S754_finite false (Pos.pow 10 k) 0)
      | _ => binary_round prec emax negative (p * Z.to_pos (10 ^ e))%positive 0
      end
  | _ => zero negative
  end.

Definition mul (x y : number) : number := SFmul prec emax x y.
Definition leb (x y : number) : bool := SFleb x y.
Definition ltb (x y : number) : bool := SFltb x y.

Definition isNaN (x : number) : bool :=
  match x with S754_nan => true | _ => false end.

(** ** [StringToNumber]: the grammar [StringNumericLiteral] *)

Definition digitValue (radix : Z) (c : ascii) : option Z :=
  let n := JsString.code c in
  let v :=
    if (48 <=? n) && (n <=? 57) then Some (n - 48)
    else if (97 <=? n) && (n <=? 102) then Some (n - 87)
    else if (65 <=? n) && (n <=? 70) then Some (n - 55)
    else None in
  match v with
  | Some d => if d <? radix then Some d else None
  | None => None
  end.

(** Longest run of digits in [radix] at the head of [s]: its value
    continuing [acc], the number of digits read continuing [n], and
    the rest of the string. *)
Fixpoint digits (radix : Z) (s : string) (acc n : Z) : Z * Z * string :=
  match s with
  | EmptyString => (acc, n, s)
  | String c s' =>
      match digitValue radix c with
      | Some d => digits radix s' (radix * acc + d) (n + 1)
      | None => (acc, n, s)
      end
  end.

(** [NonDecimalIntegerLiteral] after its two-character prefix. *)
Definition nonDecimal (radix : Z) (body : string) : number :=
  match digits radix body 0 0 with
  | (v, n, EmptyString) => if 0 <? n then ofZ v else NaN
  | _ => NaN
  end.

(** [ExponentPart], optional: the exponent and what follows it.
    [None] when an exponent indicator is not followed by digits. *)
Definition exponentPart (s : string) : option (Z * string) :=
  match s with
  | String c s' =>
      if Ascii.eqb c "e" || Ascii.eqb c "E" then
        let '(neg, s'') :=
          match s' with
          | String "+" r => (false, r)
          | String "-" r => (true, r)
          | _ => (false, s')
          end in
        match digits 10 s'' 0 0 with
        | (v, n, rest) =>
            if 0 <? n then Some (if neg then - v else v, rest) else None
        end
      else Some (0, s)
  | EmptyString => Some (0, s)
  end.

(** [StrUnsignedDecimalLiteral]. *)
Definition unsignedDecimal (negative : bool) (s : string) : number :=
  if String.eqb s "Infinity" then Infinity negative else
  let '(ip, nip, r1) := digits 10 s 0 0 in
  let '(m, nfp, r2) :=
    match r1 with
    | String "." f => let '(m, nfp, r2) := digits 10 f ip 0 in (m, nfp, r2)
    | _ => (ip, 0, r1)
    end in
  if 0 <? nip + nfp then
    match exponentPart r2 with
    | Some (e, EmptyString) => ofDecimal negative m (e - nfp)
    | _ => NaN
    end
  else NaN.

(** [StringToNumber(str)]. *)
Definition StringToNumber (str : string) : number :=
  match JsString.trim str with
  | EmptyString => zero false
  | String "0" (String "x" body) | String "0" (String "X" body) => nonDecimal 16 body
  | String "0" (String "o" body) | String "0" (String "O" body) => nonDecimal 8 body
  | String "0" (String "b" body) | String "0" (String "B" body) => nonDecimal 2 body
  | String "+" body => unsignedDecimal false body
  | String "-" body => unsignedDecimal true body
  | body => unsignedDecimal false body
  end.

(** [Math.round]: the integer nearest to [x], ties towards +Infinity.
    Only finite values are affected; used to state what the
    specification expects of the stored amount. *)
Definition round (x : number) : number :=
  match x with
  | S754_finite s m e =>
      let v := if s then Z.neg m else Z.pos m in
      match e with
      | Zneg k =>
          let r := Z.shiftr (Z.shiftr v (Z.pos k - 1) + 1) 1 in
          if (r =? 0) then zero s else ofZ r
      | _ => x
      end
  | _ => x
  end.

End JsNumber.

(* ===================================================================== *)
(** * JavaScript dates: [new Date().toISOString()] *)
(* ===================================================================== *)

Module JsDate.

Definition msPerDay : Z := 86400000.
Definition maxTime : Z := 8640000000000000.

(** A Date holds a time value in milliseconds since the epoch, or NaN
    ([None], an invalid date). *)
Definition Date : Type := option Z.

Definition TimeClip (t : Z) : Date :=
  if Z.abs t <=? maxTime then Some t else None.

Definition Day (t : Z) : Z := t / msPerDay.
Definition TimeWithinDay (t : Z) : Z := t mod msPerDay.

(** Year, month (1-12) and day of month (1-31) of a day number in the
    proleptic Gregorian calendar. *)
Definition civil (day : Z) : Z * Z * Z :=
  let z := day + 719468 in
  let era := z / 146097 in
  let doe := z - era * 146097 in
  let yoe := (doe - doe / 1460 + doe / 36524 - doe / 146096) / 365 in
  let doy := doe - (365 * yoe + yoe / 4 - yoe / 100) in
  let mp := (5 * doy + 2) / 153 in
  let d := doy - (153 * mp + 2) / 5 + 1 in
  let m := if mp <? 10 then mp + 3 else mp - 9 in
  let y := yoe + era * 400 in
  (if m <=? 2 then y + 1 else y, m, d).

Definition digitChar (d : Z) : ascii := ascii_of_N (Z.to_N (48 + d mod 10)).

(** The last [width] decimal digits of [n], zero-padded on the left. *)
Fixpoint padStart (width : nat) (n : Z) : string :=
  match width with
  | O => EmptyString
  | S w => padStart w (n / 10) +:+ String (digitChar n) EmptyString
  end.

(** Four digits for years 0 to 9999, otherwise a sign and six. *)
Definition yearString (y : Z) : string :=
  if (0 <=? y) && (y <=? 9999) then padStart 4 y
  else (if y <? 0 then "-" else "+") +:+ padStart 6 (Z.abs y).

(** The UTC calendar date [YYYY-MM-DD] of a time value. *)
Definition utcDate (t : Z) : string :=
  let '(y, m, d) := civil (Day t) in
  yearString y +:+ "-" +:+ padStart 2 m +:+ "-" +:+ padStart 2 d.

(** The UTC time of day [HH:mm:ss.sss] of a time value. *)
Definition utcTime (t : Z) : string :=
  let ms := TimeWithinDay t in
  padStart 2 (ms / 3600000) +:+ ":" +:+ padStart 2 (ms / 60000 mod 60) +:+ ":"
    +:+ padStart 2 (ms / 1000 mod 60) +:+ "." +:+ padStart 3 (ms mod 1000).

(** [Date.prototype.toISOString]; [None] stands for the RangeError
    raised on an invalid date. *)
Definition toISOString (d : Date) : option string :=
  match d with
  | Some t => Some (utcDate t +:+ "T" +:+ utcTime t +:+ "Z")
  | None => None
  end.

End JsDate.

(* ===================================================================== *)
(** * JavaScript values, objects and [FormData] *)
(* ===================================================================== *)

Module Js.

Import JsNumber.

(** The values that reach the actions: form entries are strings or
    files, a missing entry is [null], an absent property is
    [undefined], and coercion produces numbers. *)
Inductive value : Type :=
| undefined
| null
| Num (n : number)
| Str (s : string)
| File (name : string).

(** Plain objects: property name to value. *)
Abbreviation object := (gmap string value).

(** Property access [o.k]. *)
Definition prop (o : object) (k : string) : value := default undefined (o !! k).

(** [Object.prototype.toString] of a File, via [ToPrimitive]. *)
Definition objectToString (v : value) : string := "[object File]".

(** [ToNumber], which is also [Number(v)]. *)
Definition ToNumber (v : value) : number :=
  match v with
  | undefined => NaN
  | null => zero false
  | Num n => n
  | Str s => StringToNumber s
  | File _ => StringToNumber (objectToString v)
  end.

(** The operator [*]. *)
Definition times (a b : value) : value := Num (mul (ToNumber a) (ToNumber b)).

(** [!!v]. *)
Definition truthy (v : value) : bool :=
  match v with
  | undefined | null => false
  | Num n => negb (isNaN n || match n with S754_zero _ => true | _ => false end)
  | Str s => negb (String.eqb s "")
  | File _ => true
  end.

Inductive FormDataEntryValue : Type :=
| EntryString (s : string)
| EntryFile (name : string).

(** A [FormData] is the list of its entries, in submission order. *)
Definition FormData : Type := list (string * FormDataEntryValue).

(** [formData.get(name)]: the first entry of that name, else [null]. *)
Fixpoint get (formData : FormData) (name : string) : value :=
  match formData with
  | [] => null
  | (k, v) :: rest =>
      if String.eqb k name
      then match v with EntryString s => Str s | EntryFile f => File f end
      else get rest name
  end.

End Js.

(* ===================================================================== *)
(** * Zod 3: the schema combinators the actions use *)
(* ===================================================================== *)

Module Zod.

Import JsNumber Js.

Inductive ZodIssueCode : Type := invalid_type | invalid_enum_value | too_small.

Record ZodIssue : Type := {
  code : ZodIssueCode;
  path : list string;
  message : string;
}.

(** A [ZodError] is its list of issues, in the order they were added. *)
Definition ZodError : Type := list ZodIssue.

(** [{kind: "min", value, inclusive, message}] *)
Record NumberCheck : Type := {
  minimum : number;
  inclusive : bool;
  check_message : string;
}.

Inductive ZodType : Type :=
| ZodString (invalid_type_error : option string)
| ZodNumber (coerce : bool) (checks : list NumberCheck)
| ZodEnum (values : list string) (invalid_type_error : option string).

(** The shape of a [z.object], keys in declaration order. *)
Definition ZodObject : Type := list (string * ZodType).

Definition string_ (invalid_type_error : option string) : ZodType :=
  ZodString invalid_type_error.
Definition coerce_number : ZodType := ZodNumber true [].
Definition enum_ (values : list string) (invalid_type_error : option string) : ZodType :=
  ZodEnum values invalid_type_error.

(** [.gt(value, {message})]: a non-inclusive minimum. *)
Definition gt (t : ZodType) (value : number) (msg : string) : ZodType :=
  match t with
  | ZodNumber c checks =>
      ZodNumber c (checks ++ [{| minimum := value; inclusive := false; check_message := msg |}])
  | _ => t
  end.

(** [.omit(mask)]: the keys whose mask entry is not truthy. *)
Definition omit (shape : ZodObject) (mask : gmap string bool) : ZodObject :=
  List.filter (fun kv => negb (default false (mask !! kv.1))) shape.

(** [getParsedType]. *)
Definition getParsedType (v : value) : string :=
  match v with
  | undefined => "undefined"
  | null => "null"
  | Num n => if isNaN n then "nan" else "number"
  | Str _ => "string"
  | File _ => "object"
  end.

(** [util.joinValues]: quoted and separated by [" | "]. *)
Fixpoint joinValues (vs : list string) : string :=
  match vs with
  | [] => ""
  | [v] => "'" +:+ v +:+ "'"
  | v :: rest => "'" +:+ v +:+ "' | " +:+ joinValues rest
  end.

(** The default error map ([locales/en]). *)
Definition defaultInvalidType (expected received : string) : string :=
  if String.eqb received "undefined" then "Required"
  else "Expected " +:+ expected +:+ ", received " +:+ received.

Definition defaultInvalidEnumValue (options : list string) (received : string) : string :=
  "Invalid enum value. Expected " +:+ joinValues options +:+ ", received '" +:+ received +:+ "'".

(** The error map [processCreateParams] builds from
    [{invalid_type_error}]: the custom text replaces the default one
    only for an [invalid_type] issue on data that is not [undefined]. *)
Definition customMap (invalid_type_error : option string)
    (c : ZodIssueCode) (data : value) (defaultError : string) : string :=
  match c with
  | invalid_enum_value => defaultError
  | _ =>
      match data with
      | undefined => defaultError
      | _ =>
          match c with
          | invalid_type => default defaultError invalid_type_error
          | _ => defaultError
          end
      end
  end.

(** What [_parse] returns: [OK], [DIRTY] (issues were added but a
    value exists) or [INVALID]. *)
Inductive ParseReturn : Type :=
| OK (v : value)
| DIRTY (v : value)
| INVALID.

(** [ZodNumber._parse], the loop over the checks. *)
Fixpoint runChecks (p : list string) (n : number) (checks : list NumberCheck) : list ZodIssue :=
  match checks with
  | [] => []
  | c :: rest =>
      let tooSmall := if inclusive c then ltb n (minimum c) else leb n (minimum c) in
      (if tooSmall
       then [{| code := too_small; path := p; message := check_message c |}]
       else [])
      ++ runChecks p n rest
  end.

(** [_parse] of one schema on the value found at path [p]: the result
    and the issues added to the context. *)
Definition parse (t : ZodType) (p : list string) (data : value) : ParseReturn * list ZodIssue :=
  match t with
  | ZodString ite =>
      match data with
      | Str _ => (OK data, [])
      | _ =>
          (INVALID,
           [{| code := invalid_type; path := p;
               message := customMap ite invalid_type data
                            (defaultInvalidType "string" (getParsedType data)) |}])
      end
  | ZodNumber coerce checks =>
      let data := if coerce then Num (ToNumber data) else data in
      match data with
      | Num n =>
          if isNaN n then
            (INVALID,
             [{| code := invalid_type; path := p;
                 message := defaultInvalidType "number" (getParsedType data) |}])
          else
            match runChecks p n checks with
            | [] => (OK data, [])
            | issues => (DIRTY data, issues)
            end
      | _ =>
          (INVALID,
           [{| code := invalid_type; path := p;
               message := defaultInvalidType "number" (getParsedType data) |}])
      end
  | ZodEnum values ite =>
      match data with
      | Str s =>
          if existsb (String.eqb s) values then (OK data, [])
          else
            (INVALID,
             [{| code := invalid_enum_value; path := p;
                 message := customMap ite invalid_enum_value data
                              (defaultInvalidEnumValue values s) |}])
      | _ =>
          (INVALID,
           [{| code := invalid_type; path := p;
               message := customMap ite invalid_type data
                            (defaultInvalidType (joinValues values) (getParsedType data)) |}])
      end
  end.

(** [ZodObject._parse] on an object: every key of the shape is parsed
    in order, all issues are collected; the merged value exists when
    no key was [INVALID], and is clean when no key was [DIRTY]. *)
Fixpoint parseObject (shape : ZodObject) (data : object)
    : option (bool * object) * list ZodIssue :=
  match shape with
  | [] => (Some (true, ∅), [])
  | (key, t) :: rest =>
      let '(r, issues) := parse t [key] (prop data key) in
      let '(rs, issues') := parseObject rest data in
      (match r, rs with
       | OK v, Some (clean, o) => Some (clean, <[key := v]> o)
       | DIRTY v, Some (_, o) => Some (false, <[key := v]> o)
       | _, _ => None
       end,
       issues ++ issues')
  end.

Inductive SafeParseReturn : Type :=
| SafeParseSuccess (data : object)
| SafeParseError (error : ZodError).

(** [schema.safeParse(data)]. *)
Definition safeParse (shape : ZodObject) (data : object) : SafeParseReturn :=
  match parseObject shape data with
  | (Some (true, o), _) => SafeParseSuccess o
  | (_, issues) => SafeParseError issues
  end.

(** [error.flatten().fieldErrors]: the messages of the issues, grouped
    by the first element of their path. *)
Definition addFieldError (fieldErrors : gmap string (list string)) (sub : ZodIssue)
    : gmap string (list string) :=
  match path sub with
  | k :: _ => <[k := default [] (fieldErrors !! k) ++ [message sub]]> fieldErrors
  | [] => fieldErrors
  end.

Definition fieldErrors (error : ZodError) : gmap string (list string) :=
  fold_left addFieldError error ∅.

End Zod.

(* ===================================================================== *)
(** * The [invoices] table and the statements sent to it *)
(* ===================================================================== *)

Module Sql.

Import Js.

(** A row of [invoices]; the columns hold the parameters as they were
    passed to the statement. *)
Record Invoice : Type := {
  id : string;
  customer_id : value;
  amount : value;
  status : value;
  date : value;
}.

(** The three statements of the actions, with their parameters. *)
Inductive statement : Type :=
| INSERT_INTO_invoices (customer_id amount status date : value)
| UPDATE_invoices_SET (customer_id amount status : value) (WHERE_id : string)
| DELETE_FROM_invoices (WHERE_id : string).

Definition set_columns (customerId amountInCents st : value) (r : Invoice) : Invoice :=
  {| id := id r; customer_id := customerId; amount := amountInCents;
     status := st; date := date r |}.

(** The effect of a statement that commits; [fresh] is the id the
    store generates for an inserted row. *)
Definition apply (s : statement) (fresh : string) (table : list Invoice) : list Invoice :=
  match s with
  | INSERT_INTO_invoices c a st d =>
      table ++ [{| id := fresh; customer_id := c; amount := a; status := st; date := d |}]
  | UPDATE_invoices_SET c a st i =>
      (fun r => if String.eqb (id r) i then set_columns c a st r else r) <$> table
  | DELETE_FROM_invoices i =>
      List.filter (fun r => negb (String.eqb (id r) i)) table
  end.

End Sql.

(* ===================================================================== *)
(** * Server-side effects *)
(* ===================================================================== *)

Module Server.

Import Js.

Inductive Exn : Type :=
| Error (message : string)
| RangeError (message : string)
| AuthError (type : string)
| PostgresError (message : string)
| NEXT_REDIRECT (url : string).

(** What one invocation of an action finds around it: the system
    clock, whether the store raises on the statement it receives (and
    the id it would give an inserted row), and how the identity
    provider answers a sign-in ([None]: it resolves). *)
Record Env : Type := {
  clock : Z;
  sql_raises : option string;
  generated_id : string;
  identity_provider : string -> FormData -> option Exn;
}.

(** What the actions act upon. *)
Record World : Type := {
  invoices : list Sql.Invoice;
  issued : list Sql.statement;
  revalidated : list string;
  console : list Exn;
}.

(** [error instanceof AuthError] *)
Definition instanceof_AuthError (e : Exn) : bool :=
  match e with AuthError _ => true | _ => false end.

Inductive Completion (A : Type) : Type :=
| Normal (a : A)
| Throw (e : Exn).
Arguments Normal {A} a.
Arguments Throw {A} e.

Definition M (A : Type) : Type := Env -> World -> Completion A * World.

Definition ret {A} (a : A) : M A := fun _ w => (Normal a, w).

Definition bind {A B} (m : M A) (k : A -> M B) : M B :=
  fun env w =>
    match m env w with
    | (Normal a, w') => k a env w'
    | (Throw e, w') => (Throw e, w')
    end.

Definition throw {A} (e : Exn) : M A := fun _ w => (Throw e, w).

(** [try { body } catch (error) { handler }] *)
Definition try_catch {A} (body : M A) (handler : Exn -> M A) : M A :=
  fun env w =>
    match body env w with
    | (Normal a, w') => (Normal a, w')
    | (Throw e, w') => handler e env w'
    end.

#[export] Instance M_ret : MRet M := @ret.
#[export] Instance M_bind : MBind M := fun A B k m => bind m k.

(** [await sql`...`]: the statement is sent; the store either raises,
    leaving the table as it was, or commits it. *)
Definition sql (s : Sql.statement) : M unit :=
  fun env w =>
    let sent := {| invoices := invoices w; issued := issued w ++ [s];
                   revalidated := revalidated w; console := console w |} in
    match sql_raises env with
    | Some msg => (Throw (PostgresError msg), sent)
    | None =>
        (Normal tt,
         {| invoices := Sql.apply s (generated_id env) (invoices w);
            issued := issued sent; revalidated := revalidated w; console := console w |})
    end.

Definition revalidatePath (p : string) : M unit :=
  fun _ w =>
    (Normal tt,
     {| invoices := invoices w; issued := issued w;
        revalidated := revalidated w ++ [p]; console := console w |}).

(** [redirect] works by throwing. *)
Definition redirect {A} (url : string) : M A := throw (NEXT_REDIRECT url).

Definition console_log (e : Exn) : M unit :=
  fun _ w =>
    (Normal tt,
     {| invoices := invoices w; issued := issued w;
        revalidated := revalidated w; console := console w ++ [e] |}).

Definition signIn (provider : string) (formData : FormData) : M unit :=
  fun env w =>
    match identity_provider env provider formData with
    | Some e => (Throw e, w)
    | None => (Normal tt, w)
    end.

(** [new Date()] *)
Definition new_Date : M JsDate.Date :=
  fun env w => (Normal (JsDate.TimeClip (clock env)), w).

Definition toISOString (d : JsDate.Date) : M string :=
  match JsDate.toISOString d with
  | Some s => ret s
  | None => throw (RangeError "Invalid time value")
  end.

End Server.

(* ===================================================================== *)
(** * The server actions *)
(* ===================================================================== *)

Module Actions.

Import JsNumber Js Zod Sql Server.

Definition authenticate (prevState : option string) (formData : FormData)
    : M (option string) :=
  try_catch
    (signIn "credentials" formData ;;
     ret None)
    (fun error =>
       match error with
       | AuthError type =>
           if String.eqb type "CredentialsSignin"
           then ret (Some "Invalid credentials.")
           else ret (Some "Something went wrong.")
       | _ => throw error
       end).

Definition formSchema : ZodObject :=
  [ ("id", string_ None);
    ("customerId", string_ (Some "Please select a customer"));
    ("amount", gt coerce_number (ofZ 0) "Please enter an amount greater tahn $0.");
    ("status", enum_ ["pending"; "paid"] (Some "Please select an invoice status"));
    ("date", string_ None) ].

Definition CreateInvoice : ZodObject :=
  omit formSchema {[ "id" := true; "date" := true ]}.

Record State : Type := {
  errors : option (gmap string (list string));
  message : option string;
}.

(** The object literal both actions hand to [safeParse]. *)
Definition rawFields (formData : FormData) : object :=
  {[ "customerId" := get formData "customerId";
     "amount" := get formData "amount";
     "status" := get formData "status" ]}.

(** In both actions [caught] carries the value the [catch] block
    returns, [None] when the [try] block ran to its end. *)
Definition createInvoice (prevState : State) (formData : FormData) : M State :=
  let validatedFields := safeParse CreateInvoice (rawFields formData) in
  match validatedFields with
  | SafeParseError error =>
      ret {| errors := Some (fieldErrors error);
             message := Some "Missing Fields. Failed to Create Invoice." |}
  | SafeParseSuccess data =>
      let customerId := prop data "customerId" in
      let amount := prop data "amount" in
      let status := prop data "status" in
      let amountInCents := times amount (Num (ofZ 100)) in
      now ← new_Date;
      iso ← toISOString now;
      let date := default undefined (Str <$> JsString.split iso "T" !! 0%nat) in
      caught ← try_catch
                  (sql (INSERT_INTO_invoices customerId amountInCents status date) ;;
                   ret None)
                  (fun error =>
                     ret (Some {| errors := None;
                                  message := Some "Database Error: Failed to Create Invoice" |}));
      match caught with
      | Some result => ret result
      | None =>
          revalidatePath "/dashboard/invoices" ;;
          redirect "/dashboard/invoices"
      end
  end.

Definition UpdateInvoice : ZodObject :=
  omit formSchema {[ "id" := true; "date" := true ]}.

Definition updateInvoice (id : string) (prevState : State) (formData : FormData)
    : M State :=
  let validatedFields := safeParse UpdateInvoice (rawFields formData) in
  match validatedFields with
  | SafeParseError error =>
      ret {| errors := Some (fieldErrors error);
             message := Some "Missing Fields. Failed to Update Invoice." |}
  | SafeParseSuccess data =>
      let customerId := prop data "customerId" in
      let amount := prop data "amount" in
      let status := prop data "status" in
      let amountInCents := times amount (Num (ofZ 100)) in
      caught ← try_catch
                  (sql (UPDATE_invoices_SET customerId amountInCents status id) ;;
                   ret None)
                  (fun error =>
                     console_log error ;;
                     ret (Some {| errors := None;
                                  message := Some "Database Error: Failed to Update Invoice" |}));
      match caught with
      | Some result => ret result
      | None =>
          revalidatePath "/dashboard/invoices" ;;
          redirect "/dashboard/invoices"
      end
  end.

Definition deleteInvoice (id : string) : M unit :=
  (throw (Error "Failed to Delete Invoice") : M unit) ;;
  sql (DELETE_FROM_invoices id) ;;
  revalidatePath "/dashboard/invoices".

End Actions.

(* ===================================================================== *)
(** * [auth.config.ts]: the [authorized] callback *)
(* ===================================================================== *)

Module AuthConfig.

Record User : Type := { name : string; email : string }.

(** [auth] is a session or [null]; its [user] may be absent. *)
Record Session : Type := { user : option User; expires : string }.

Record URL : Type := {
  origin : string;
  pathname : string;
  search : string;
  hash : string;
}.

(** [new URL(path, base)] for an absolute-path reference: the origin
    of [base] with the given path and no query or fragment. *)
Definition new_URL (path : string) (base : URL) : URL :=
  {| origin := origin base; pathname := path; search := ""; hash := "" |}.

(** The callback returns a boolean or a redirect response. *)
Inductive Authorized : Type :=
| Boolean (b : bool)
| Response_redirect (url : URL).

(** [pages.signIn] *)
Definition signIn_page : string := "/login".

Definition authorized (auth : option Session) (nextUrl : URL) : Authorized :=
  let isLoggedIn := match auth ≫= user with Some _ => true | None => false end in
  let isOnDashboard := JsString.startsWith (pathname nextUrl) "/dashboard" in
  if isOnDashboard then
    if isLoggedIn then Boolean true
    else Boolean false
  else if isLoggedIn then
    Response_redirect (new_URL "/dashboard" nextUrl)
  else Boolean true.

End AuthConfig.

(* ===================================================================== *)
(** * Vocabulary of the specification and sample inputs *)
(* ===================================================================== *)

Module Spec.

Import Js Zod Server Actions AuthConfig.

(** The messages [flatten] files under key [k]. *)
Definition messagesFor (k : string) (error : ZodError) : list string :=
  omap (fun sub => match path sub with
                   | k' :: _ => if String.eqb k' k then Some (Zod.message sub) else None
                   | [] => None
                   end) error.

(** The three rules left after [omit], as Zod holds them. *)
Definition customerIdRule : ZodType := ZodString (Some "Please select a customer").
Definition statusRule : ZodType :=
  ZodEnum ["pending"; "paid"] (Some "Please select an invoice status").

Definition amountRule : ZodType :=
  ZodNumber true [{| minimum := JsNumber.zero false; inclusive := false;
                     check_message := "Please enter an amount greater tahn $0." |}].

(** The issues of a form, field by field in the order of the schema. *)
Definition issuesOf (fd : FormData) : ZodError :=
  (parse customerIdRule ["customerId"] (get fd "customerId")).2
  ++ (parse amountRule ["amount"] (get fd "amount")).2
  ++ (parse statusRule ["status"] (get fd "status")).2.


(** The gate's inputs and results, as section 4.3 names them. *)
Definition isAuthenticated (auth : option Session) : bool :=
  match auth with
  | Some {| user := Some _ |} => true
  | _ => false
  end.

Inductive Decision : Type :=
| allow
| deny
| redirect_to (path : string).

Definition decision (r : Authorized) : Decision :=
  match r with
  | Boolean true => allow
  | Boolean false => deny
  | Response_redirect url => redirect_to (pathname url)
  end.

(** A form with the three fields filled in. *)
Definition form (customerId amount status : string) : FormData :=
  [("customerId", EntryString customerId); ("amount", EntryString amount);
   ("status", EntryString status)].

Definition noState : State := {| errors := None; message := None |}.

(** The field errors an action hands back, if it returns any. *)
Definition reportedErrors (outcome : Completion State) : option (gmap string (list string)) :=
  match outcome with
  | Normal st => errors st
  | Throw _ => None
  end.

(** An invocation at 2023-11-14T22:13:20Z against a store that
    accepts the statement, and one against a store that raises. *)
Definition calm : Env :=
  {| clock := 1700000000000; sql_raises := None; generated_id := "inv-3";
     identity_provider := fun _ _ => None |}.

Definition failing : Env :=
  {| clock := 1700000000000; sql_raises := Some "connection refused";
     generated_id := "inv-3"; identity_provider := fun _ _ => None |}.

Definition answering (e : Exn) : Env :=
  {| clock := 1700000000000; sql_raises := None; generated_id := "inv-3";
     identity_provider := fun _ _ => Some e |}.

Definition emptyWorld : World :=
  {| invoices := []; issued := []; revalidated := []; console := [] |}.

Definition twoInvoices : World :=
  {| invoices :=
       [ {| Sql.id := "inv-1"; Sql.customer_id := Str "c1";
            Sql.amount := Num (JsNumber.ofZ 1500); Sql.status := Str "pending";
            Sql.date := Str "2023-10-01" |};
         {| Sql.id := "inv-2"; Sql.customer_id := Str "c2";
            Sql.amount := Num (JsNumber.ofZ 990); Sql.status := Str "paid";
            Sql.date := Str "2023-10-02" |} ];
     issued := []; revalidated := []; console := [] |}.

End Spec.

(* ===================================================================== *)
(** * Facts about the runtime models *)
(* ===================================================================== *)

Section StringFacts.

Import JsString.

Lemma append_cons (a : ascii) (s t : string) : String a s +:+ t = String a (s +:+ t).
Proof. reflexivity. Qed.

Lemma append_empty_l (t : string) : EmptyString +:+ t = t.
Proof. reflexivity. Qed.

Lemma append_empty_r (s : string) : s +:+ EmptyString = s.
Proof. induction s as [|a s IH]; [reflexivity | now rewrite append_cons, IH]. Qed.

Lemma append_snoc (cur : string) (c : ascii) (d : string) :
  (cur +:+ String c EmptyString) +:+ d = cur +:+ String c d.
Proof.
  induction cur as [|a cur IH]; [reflexivity |].
  now rewrite !append_cons, IH.
Qed.

Lemma mentions_append (c : ascii) (s t : string) :
  mentions c (s +:+ t) = mentions c s || mentions c t.
Proof.
  induction s as [|a s IH]; [reflexivity |].
  rewrite append_cons. simpl. rewrite IH. apply orb_assoc.
Qed.

(** Splitting at a one-character separator: the first piece is what
    precedes the first occurrence. *)
Lemma split_scan_first (c : ascii) (d r cur : string) :
  mentions c d = false ->
  split_scan (String c EmptyString) (d +:+ String c r) O cur
  = (cur +:+ d) :: split_scan (String c EmptyString) r O EmptyString.
Proof.
  revert cur. induction d as [|a d IH]; intros cur Hd.
  - rewrite append_empty_l, append_empty_r. simpl.
    now rewrite Ascii.eqb_refl.
  - simpl in Hd. apply orb_false_elim in Hd as [Ha Hd].
    rewrite append_cons. simpl.
    rewrite Ha, (IH _ Hd), append_snoc. reflexivity.
Qed.

Lemma split_first (c : ascii) (d r : string) :
  mentions c d = false ->
  split (d +:+ String c r) (String c EmptyString) !! 0%nat = Some d.
Proof. intros Hd. unfold split. now rewrite split_scan_first. Qed.

End StringFacts.

Section DateFacts.

Import JsString JsDate.

Lemma digitChar_not_T (d : Z) : Ascii.eqb "T" (digitChar d) = false.
Proof.
  unfold digitChar.
  pose proof (Z.mod_pos_bound d 10 ltac:(lia)) as Hk.
  set (k := d mod 10) in *. clearbody k.
  assert (Hc : k = 0 \/ k = 1 \/ k = 2 \/ k = 3 \/ k = 4 \/ k = 5 \/ k = 6
               \/ k = 7 \/ k = 8 \/ k = 9) by lia.
  repeat (destruct Hc as [-> | Hc]; [reflexivity |]). now subst.
Qed.

Lemma padStart_no_T (width : nat) (n : Z) : mentions "T" (padStart width n) = false.
Proof.
  revert n. induction width as [|w IH]; intros n; [reflexivity |].
  cbn [padStart]. rewrite mentions_append, IH. cbn [mentions orb].
  now rewrite digitChar_not_T.
Qed.

Lemma yearString_no_T (y : Z) : mentions "T" (yearString y) = false.
Proof.
  unfold yearString.
  destruct ((0 <=? y) && (y <=? 9999)); [apply padStart_no_T |].
  rewrite mentions_append, padStart_no_T. now destruct (y <? 0).
Qed.

Lemma utcDate_no_T (t : Z) : mentions "T" (utcDate t) = false.
Proof.
  unfold utcDate. destruct (civil (Day t)) as [[y m] d].
  rewrite !mentions_append, yearString_no_T, !padStart_no_T. reflexivity.
Qed.

(** [iso.split('T')[0]] is the calendar date of the ISO string. *)
Lemma toISOString_split (t : Z) :
  Z.abs t <= maxTime ->
  exists iso, toISOString (TimeClip t) = Some iso
              /\ split iso "T" !! 0%nat = Some (utcDate t).
Proof.
  intros Ht. unfold TimeClip.
  destruct (Z.leb_spec (Z.abs t) maxTime) as [_ | ?]; [| lia].
  eexists; split; [reflexivity |].
  apply (split_first "T"), utcDate_no_T.
Qed.

End DateFacts.

Section ZodFacts.

Import Js Zod Spec.

Lemma fold_addFieldError (error : ZodError) (acc : gmap string (list string)) (k : string) :
  fold_left addFieldError error acc !! k
  = match acc !! k, messagesFor k error with
    | None, [] => None
    | o, ms => Some (default [] o ++ ms)
    end.
Proof.
  revert acc. induction error as [|sub error IH]; intros acc; simpl.
  - destruct (acc !! k); simpl; [now rewrite app_nil_r | reflexivity].
  - rewrite IH. unfold addFieldError, messagesFor. simpl.
    destruct (path sub) as [|k' ?]; [reflexivity |].
    destruct (String.eqb_spec k' k) as [-> | Hne].
    + rewrite lookup_insert_eq. simpl.
      destruct (acc !! k); simpl; rewrite <- ?app_assoc; simpl;
        match goal with |- context [omap ?f error] => destruct (omap f error) end;
        reflexivity.
    + rewrite lookup_insert_ne by assumption. reflexivity.
Qed.

Lemma fieldErrors_lookup (error : ZodError) (k : string) :
  fieldErrors error !! k
  = match messagesFor k error with [] => None | ms => Some ms end.
Proof. unfold fieldErrors. rewrite fold_addFieldError, lookup_empty. reflexivity. Qed.

Lemma messagesFor_app (k : string) (e1 e2 : ZodError) :
  messagesFor k (e1 ++ e2) = messagesFor k e1 ++ messagesFor k e2.
Proof. apply omap_app. Qed.

(** [formData.get] never yields [undefined]. *)
Lemma get_defined (formData : FormData) (name : string) : get formData name <> undefined.
Proof.
  induction formData as [|[k v] rest IH]; simpl; [discriminate |].
  destruct (String.eqb k name); [destruct v; discriminate | exact IH].
Qed.

End ZodFacts.

Section SchemaFacts.

Import JsNumber Js Zod Actions Spec.

Lemma CreateInvoice_shape :
  CreateInvoice = [("customerId", customerIdRule); ("amount", amountRule);
                   ("status", statusRule)].
Proof. reflexivity. Qed.

Lemma UpdateInvoice_shape :
  UpdateInvoice = [("customerId", customerIdRule); ("amount", amountRule);
                   ("status", statusRule)].
Proof. reflexivity. Qed.

Lemma rawFields_customerId (fd : FormData) :
  prop (rawFields fd) "customerId" = get fd "customerId".
Proof. unfold prop, rawFields. now simplify_map_eq. Qed.

Lemma rawFields_amount (fd : FormData) :
  prop (rawFields fd) "amount" = get fd "amount".
Proof. unfold prop, rawFields. now simplify_map_eq. Qed.

Lemma rawFields_status (fd : FormData) :
  prop (rawFields fd) "status" = get fd "status".
Proof. unfold prop, rawFields. now simplify_map_eq. Qed.

(** Parsing an object against three rules, spelled out. *)
Lemma safeParse_three (tc ta ts : ZodType) (data : object) :
  safeParse [("customerId", tc); ("amount", ta); ("status", ts)] data
  = match parse tc ["customerId"] (prop data "customerId"),
          parse ta ["amount"] (prop data "amount"),
          parse ts ["status"] (prop data "status") with
    | (OK c, _), (OK a, _), (OK s, _) =>
        SafeParseSuccess (<["customerId" := c]> (<["amount" := a]> (<["status" := s]> ∅)))
    | (_, ic), (_, ia), (_, ist) => SafeParseError (ic ++ ia ++ ist ++ [])
    end.
Proof.
  unfold safeParse. cbn [parseObject].
  destruct (parse tc _ _) as [[c | c |] ic], (parse ta _ _) as [[a | a |] ia],
           (parse ts _ _) as [[s | s |] ist]; reflexivity.
Qed.

(** The [customerId] rule: any string passes, the empty one included. *)
Lemma parse_customerId (v : value) :
  v <> undefined ->
  parse customerIdRule ["customerId"] v
  = match v with
    | Str _ => (OK v, [])
    | _ => (INVALID, [{| code := invalid_type; path := ["customerId"];
                         Zod.message := "Please select a customer" |}])
    end.
Proof. destruct v; intros Hv; try reflexivity. now destruct Hv. Qed.

(** The [status] rule: the custom text answers a value that is not a
    string; a string outside the enumeration gets Zod's own text. *)
Lemma parse_status (v : value) :
  v <> undefined ->
  parse statusRule ["status"] v
  = match v with
    | Str s =>
        if String.eqb s "pending" || String.eqb s "paid" then (OK v, [])
        else (INVALID,
              [{| code := invalid_enum_value; path := ["status"];
                  Zod.message := "Invalid enum value. Expected 'pending' | 'paid', received '"
                             +:+ s +:+ "'" |}])
    | _ => (INVALID, [{| code := invalid_type; path := ["status"];
                         Zod.message := "Please select an invoice status" |}])
    end.
Proof.
  destruct v as [| | n | s | f]; intros Hv; try reflexivity; [now destruct Hv |].
  cbn [parse statusRule existsb]. rewrite orb_false_r.
  destruct (String.eqb s "pending" || String.eqb s "paid"); reflexivity.
Qed.

(** The [amount] rule: coercion with [Number], then the strict
    minimum. *)
Lemma parse_amount (msg : string) (v : value) :
  parse (ZodNumber true [{| minimum := zero false; inclusive := false;
                            check_message := msg |}]) ["amount"] v
  = let n := ToNumber v in
    if isNaN n then
      (INVALID, [{| code := invalid_type; path := ["amount"];
                    Zod.message := "Expected number, received nan" |}])
    else if leb n (zero false) then
      (DIRTY (Num n), [{| code := too_small; path := ["amount"]; Zod.message := msg |}])
    else (OK (Num n), []).
Proof.
  cbn [parse runChecks inclusive minimum check_message].
  destruct (isNaN (ToNumber v)) eqn:Hnan.
  - unfold getParsedType. rewrite Hnan. reflexivity.
  - destruct (leb (ToNumber v) (zero false)); reflexivity.
Qed.

(** ** What [safeParse] answers on the fields of a form *)

Lemma parse_OK_clean (t : ZodType) (p : list string) (v x : value) (issues : list ZodIssue) :
  parse t p v = (OK x, issues) -> issues = [].
Proof.
  destruct t as [ite | c checks | values ite]; cbn [parse].
  - destruct v; intros [= _ <-] || intros [=]; reflexivity.
  - destruct (if c then Num (ToNumber v) else v) as [| | n | |]; try (intros [=]; fail).
    destruct (isNaN n); [intros [=] |].
    destruct (runChecks p n checks); intros [=]; subst; reflexivity.
  - destruct v as [| | | s |]; try (intros [=]; fail).
    destruct (existsb (String.eqb s) values); intros [=]; subst; reflexivity.
Qed.

Lemma runChecks_path (p : list string) (n : number) (checks : list NumberCheck) :
  Forall (fun sub => path sub = p) (runChecks p n checks).
Proof.
  induction checks as [|c checks IH]; cbn [runChecks]; [constructor |].
  apply Forall_app. split; [| exact IH].
  destruct (if inclusive c then _ else _); repeat constructor.
Qed.

Lemma parse_path (t : ZodType) (p : list string) (v : value) :
  Forall (fun sub => path sub = p) (parse t p v).2.
Proof.
  destruct t as [ite | c checks | values ite]; cbn [parse].
  - destruct v; repeat constructor.
  - destruct (if c then Num (ToNumber v) else v) as [| | n | |]; try (repeat constructor; fail).
    destruct (isNaN n); [repeat constructor |].
    pose proof (runChecks_path p n checks) as H.
    destruct (runChecks p n checks); [constructor | exact H].
  - destruct v as [| | | s |]; try (repeat constructor; fail).
    destruct (existsb (String.eqb s) values); repeat constructor.
Qed.

Lemma messagesFor_at (k k' : string) (issues : list ZodIssue) :
  Forall (fun sub => path sub = [k']) issues ->
  messagesFor k issues = if String.eqb k' k then Zod.message <$> issues else [].
Proof.
  induction 1 as [|sub issues Hsub _ IH]; [now destruct (String.eqb k' k) |].
  unfold messagesFor in *. cbn [omap list_omap]. rewrite Hsub, IH.
  destruct (String.eqb k' k); reflexivity.
Qed.

Lemma safeParse_fields (fd : FormData) :
  safeParse CreateInvoice (rawFields fd)
  = match parse customerIdRule ["customerId"] (get fd "customerId"),
          parse amountRule ["amount"] (get fd "amount"),
          parse statusRule ["status"] (get fd "status") with
    | (OK c, _), (OK a, _), (OK s, _) =>
        SafeParseSuccess (<["customerId" := c]> (<["amount" := a]> (<["status" := s]> ∅)))
    | _, _, _ => SafeParseError (issuesOf fd)
    end.
Proof.
  rewrite CreateInvoice_shape, safeParse_three.
  rewrite rawFields_customerId, rawFields_amount, rawFields_status.
  unfold issuesOf.
  destruct (parse customerIdRule _ _) as [[c | c |] ic], (parse amountRule _ _) as [[a | a |] ia],
           (parse statusRule _ _) as [[s | s |] ist]; cbn [snd]; rewrite ?app_nil_r; reflexivity.
Qed.

Lemma safeParse_error (fd : FormData) (error : ZodError) :
  safeParse CreateInvoice (rawFields fd) = SafeParseError error -> error = issuesOf fd.
Proof.
  rewrite safeParse_fields. unfold issuesOf.
  destruct (parse customerIdRule _ _) as [[c | c |] ic], (parse amountRule _ _) as [[a | a |] ia],
           (parse statusRule _ _) as [[s | s |] ist]; congruence.
Qed.

Lemma safeParse_invalid (fd : FormData) :
  issuesOf fd <> [] -> safeParse CreateInvoice (rawFields fd) = SafeParseError (issuesOf fd).
Proof.
  intros Hne. rewrite safeParse_fields. unfold issuesOf in *.
  destruct (parse customerIdRule _ _) as [[c | c |] ic] eqn:Hc,
           (parse amountRule _ _) as [[a | a |] ia] eqn:Ha,
           (parse statusRule _ _) as [[s | s |] ist] eqn:Hs; try reflexivity.
  apply parse_OK_clean in Hc, Ha, Hs. subst. now destruct Hne.
Qed.

(** The entry of the field-error map under each of the three keys. *)
Lemma fieldErrors_issuesOf (fd : FormData) (k : string) :
  fieldErrors (issuesOf fd) !! k
  = match
      (if String.eqb "customerId" k
       then Zod.message <$> (parse customerIdRule ["customerId"] (get fd "customerId")).2
       else [])
      ++ (if String.eqb "amount" k
          then Zod.message <$> (parse amountRule ["amount"] (get fd "amount")).2
          else [])
      ++ (if String.eqb "status" k
          then Zod.message <$> (parse statusRule ["status"] (get fd "status")).2
          else [])
    with [] => None | ms => Some ms end.
Proof.
  rewrite fieldErrors_lookup. unfold issuesOf.
  rewrite !messagesFor_app.
  rewrite !(messagesFor_at k _ _ (parse_path _ _ _)). reflexivity.
Qed.

(** A successful parse returns the coerced fields, and each of them
    satisfies its rule. *)
Lemma safeParse_success (fd : FormData) (data : object) :
  safeParse CreateInvoice (rawFields fd) = SafeParseSuccess data ->
  let n := ToNumber (get fd "amount") in
  (exists c, get fd "customerId" = Str c)
  /\ isNaN n = false /\ leb n (zero false) = false
  /\ (get fd "status" = Str "pending" \/ get fd "status" = Str "paid")
  /\ prop data "customerId" = get fd "customerId"
  /\ prop data "amount" = Num n
  /\ prop data "status" = get fd "status".
Proof.
  rewrite safeParse_fields.
  rewrite (parse_customerId _ (get_defined _ _)), (parse_status _ (get_defined _ _)).
  unfold amountRule. rewrite parse_amount. cbv zeta.
  destruct (get fd "customerId") as [| | | c |]; try discriminate.
  destruct (isNaN _); [discriminate |].
  destruct (leb _ _); [discriminate |].
  destruct (get fd "status") as [| | | s |]; try discriminate.
  destruct (String.eqb_spec s "pending") as [-> | Hp]; cbn [orb].
  - intros [= <-]. unfold prop. simplify_map_eq. eauto 10.
  - destruct (String.eqb_spec s "paid") as [-> | Hd]; [| discriminate].
    intros [= <-]. unfold prop. simplify_map_eq. eauto 10.
Qed.

End SchemaFacts.

(* ===================================================================== *)
(** * The actions, run *)
(* ===================================================================== *)

Section ActionFacts.

Import JsNumber Js Zod Sql Server Actions.

Lemma createInvoice_error_run (prevState : State) (fd : FormData) (env : Env) (w : World)
    (error : ZodError) :
  safeParse CreateInvoice (rawFields fd) = SafeParseError error ->
  createInvoice prevState fd env w
  = (Normal {| errors := Some (fieldErrors error);
               message := Some "Missing Fields. Failed to Create Invoice." |}, w).
Proof. intros H. unfold createInvoice. rewrite H. reflexivity. Qed.

Lemma createInvoice_success_run (prevState : State) (fd : FormData) (env : Env) (w : World)
    (data : object) :
  safeParse CreateInvoice (rawFields fd) = SafeParseSuccess data ->
  Z.abs (clock env) <= JsDate.maxTime ->
  let amountInCents := times (prop data "amount") (Num (ofZ 100)) in
  let date := Str (JsDate.utcDate (clock env)) in
  let stmt := INSERT_INTO_invoices (prop data "customerId") amountInCents
                                   (prop data "status") date in
  createInvoice prevState fd env w
  = match sql_raises env with
    | Some msg =>
        (Normal {| errors := None;
                   message := Some "Database Error: Failed to Create Invoice" |},
         {| invoices := invoices w; issued := issued w ++ [stmt];
            revalidated := revalidated w; console := console w |})
    | None =>
        (Throw (NEXT_REDIRECT "/dashboard/invoices"),
         {| invoices := invoices w ++
              [{| id := generated_id env; customer_id := prop data "customerId";
                  amount := amountInCents; status := prop data "status";
                  date := date |}];
            issued := issued w ++ [stmt];
            revalidated := revalidated w ++ ["/dashboard/invoices"];
            console := console w |})
    end.
Proof.
  intros H Hclock. cbv zeta. unfold createInvoice. rewrite H.
  destruct (toISOString_split _ Hclock) as (iso & Hiso & Hsplit).
  unfold mbind, M_bind, bind, new_Date, toISOString. rewrite Hiso.
  unfold ret. rewrite Hsplit.
  unfold try_catch, sql, revalidatePath, redirect, throw.
  destruct (sql_raises env); reflexivity.
Qed.

Lemma updateInvoice_error_run (id : string) (prevState : State) (fd : FormData) (env : Env)
    (w : World) (error : ZodError) :
  safeParse UpdateInvoice (rawFields fd) = SafeParseError error ->
  updateInvoice id prevState fd env w
  = (Normal {| errors := Some (fieldErrors error);
               message := Some "Missing Fields. Failed to Update Invoice." |}, w).
Proof. intros H. unfold updateInvoice. rewrite H. reflexivity. Qed.

Lemma updateInvoice_success_run (id : string) (prevState : State) (fd : FormData) (env : Env)
    (w : World) (data : object) :
  safeParse UpdateInvoice (rawFields fd) = SafeParseSuccess data ->
  let stmt := UPDATE_invoices_SET (prop data "customerId")
                (times (prop data "amount") (Num (ofZ 100))) (prop data "status") id in
  updateInvoice id prevState fd env w
  = match sql_raises env with
    | Some msg =>
        (Normal {| errors := None;
                   message := Some "Database Error: Failed to Update Invoice" |},
         {| invoices := invoices w; issued := issued w ++ [stmt];
            revalidated := revalidated w;
            console := console w ++ [PostgresError msg] |})
    | None =>
        (Throw (NEXT_REDIRECT "/dashboard/invoices"),
         {| invoices := apply stmt (generated_id env) (invoices w);
            issued := issued w ++ [stmt];
            revalidated := revalidated w ++ ["/dashboard/invoices"];
            console := console w |})
    end.
Proof.
  intros H. cbv zeta. unfold updateInvoice. rewrite H.
  unfold mbind, M_bind, bind, try_catch, sql, console_log, revalidatePath, redirect,
    throw, ret.
  destruct (sql_raises env); reflexivity.
Qed.

(** An [UPDATE] keeps the table's length and, row by row, the [id]
    and the [date]; rows of another id are left as they were. *)
Lemma update_rows (c a st : value) (i fresh : string) (table : list Invoice) (k : nat)
    (r : Invoice) :
  table !! k = Some r ->
  exists r', apply (UPDATE_invoices_SET c a st i) fresh table !! k = Some r'
             /\ id r' = id r /\ date r' = date r
             /\ (id r <> i -> r' = r)
             /\ (id r = i -> customer_id r' = c /\ amount r' = a /\ status r' = st).
Proof.
  intros Hk. cbn [apply]. rewrite list_lookup_fmap, Hk. cbn [fmap option_fmap option_map].
  eexists; split; [reflexivity |].
  destruct (String.eqb_spec (id r) i) as [Heq | Hne]; cbn; intuition congruence.
Qed.

End ActionFacts.

(* ===================================================================== *)
(** * Properties of the specification *)
(* ===================================================================== *)

Section Properties.

Import JsNumber Js Zod Sql Server Actions AuthConfig Spec.

(** C1: whenever validation of the submitted fields fails,
    [createInvoice] returns the validator's field-error map under
    [errors] and the message "Missing Fields. Failed to Create
    Invoice.", sends no statement to the store and leaves the stored
    invoices (and everything else) as they were. *)
Theorem createInvoice_invalid_returns_errors
    (prevState : State) (fd : FormData) (env : Env) (w : World) (error : ZodError) :
  safeParse CreateInvoice (rawFields fd) = SafeParseError error ->
  let (outcome, w') := createInvoice prevState fd env w in
  outcome = Normal {| errors := Some (fieldErrors error);
                      message := Some "Missing Fields. Failed to Create Invoice." |}
  /\ invoices w' = invoices w
  /\ issued w' = issued w
  /\ w' = w.
Proof.
  intros H. rewrite (createInvoice_error_run _ _ _ _ _ H). repeat split.
Qed.

Lemma createInvoice_invalid_returns_errors_witness :
  exists error,
    safeParse CreateInvoice (rawFields [("amount", EntryString "0")]) = SafeParseError error
    /\ fieldErrors error !! "customerId" = Some ["Please select a customer"]
    /\ let (outcome, w') :=
         createInvoice noState [("amount", EntryString "0")] calm twoInvoices in
       outcome = Normal {| errors := Some (fieldErrors error);
                           message := Some "Missing Fields. Failed to Create Invoice." |}
       /\ invoices w' = invoices twoInvoices
       /\ issued w' = issued twoInvoices
       /\ w' = twoInvoices.
Proof.
  eexists. split; [vm_compute; reflexivity |]. split; [vm_compute; reflexivity |].
  apply createInvoice_invalid_returns_errors. vm_compute; reflexivity.
Defined.

(** C4: [deleteInvoice] throws the error "Failed to Delete Invoice"
    for every id, whether or not a row has it; the DELETE statement
    is never sent, no path is revalidated and the stored invoices are
    unchanged. *)
Theorem deleteInvoice_always_throws (id : string) (env : Env) (w : World) :
  let (outcome, w') := deleteInvoice id env w in
  outcome = Throw (Error "Failed to Delete Invoice")
  /\ issued w' = issued w
  /\ revalidated w' = revalidated w
  /\ invoices w' = invoices w.
Proof. cbn. repeat split. Qed.

(** C5: the four rows of the decision table of the gate.  On a path
    that starts with "/dashboard" the request is allowed when
    authenticated and denied otherwise; on any other path an
    authenticated request is redirected to "/dashboard" and an
    unauthenticated one is allowed.  The decision depends on the
    session and the URL only through these two inputs. *)
Theorem authorized_decision_table (auth : option Session) (nextUrl : URL) :
  let a := isAuthenticated auth in
  let onDashboard := JsString.startsWith (pathname nextUrl) "/dashboard" in
  (onDashboard = true -> a = true -> authorized auth nextUrl = Boolean true)
  /\ (onDashboard = true -> a = false -> authorized auth nextUrl = Boolean false)
  /\ (onDashboard = false -> a = true ->
      decision (authorized auth nextUrl) = redirect_to "/dashboard")
  /\ (onDashboard = false -> a = false -> authorized auth nextUrl = Boolean true)
  /\ (forall auth' nextUrl',
        isAuthenticated auth' = a -> pathname nextUrl' = pathname nextUrl ->
        decision (authorized auth' nextUrl') = decision (authorized auth nextUrl)).
Proof.
  assert (Hlog : forall x, match x ≫= user with Some _ => true | None => false end
                           = isAuthenticated x).
  { intros [[[u|] e]|]; reflexivity. }
  cbv zeta. unfold authorized. rewrite Hlog.
  split; [| split; [| split; [| split]]].
  - intros -> ->. reflexivity.
  - intros -> ->. reflexivity.
  - intros -> ->. reflexivity.
  - intros -> ->. reflexivity.
  - intros auth' nextUrl' Ha Hp. unfold authorized. rewrite Hlog, Ha, Hp.
    destruct (JsString.startsWith _ _), (isAuthenticated auth); reflexivity.
Qed.

Lemma authorized_decision_table_witness :
  let alice := Some {| user := Some {| name := "Alice"; email := "alice@example.com" |};
                       expires := "2030-01-01" |} in
  let at_ (p : string) := {| origin := "https://example.com"; pathname := p;
                             search := ""; hash := "" |} in
  authorized alice (at_ "/dashboard/invoices") = Boolean true
  /\ authorized None (at_ "/dashboard/invoices") = Boolean false
  /\ decision (authorized alice (at_ "/login")) = redirect_to "/dashboard"
  /\ authorized None (at_ "/login") = Boolean true.
Proof.
  cbv zeta. split; [| split; [| split]].
  - apply (proj1 (authorized_decision_table _ _)); reflexivity.
  - apply (proj1 (proj2 (authorized_decision_table _ _))); reflexivity.
  - apply (proj1 (proj2 (proj2 (authorized_decision_table _ _)))); reflexivity.
  - apply (proj1 (proj2 (proj2 (proj2 (authorized_decision_table _ _))))); reflexivity.
Defined.

(** C6: [authenticate] returns "Invalid credentials." when the
    sign-in raises an [AuthError] of type CredentialsSignin, returns
    "Something went wrong." for an [AuthError] of any other type, and
    rethrows any error that is not an [AuthError]. *)
Theorem authenticate_outcomes
    (prevState : option string) (fd : FormData) (env : Env) (w : World) (e : Exn) :
  identity_provider env "credentials" fd = Some e ->
  (e = AuthError "CredentialsSignin" ->
   authenticate prevState fd env w = (Normal (Some "Invalid credentials."), w))
  /\ (forall type, e = AuthError type -> String.eqb type "CredentialsSignin" = false ->
      authenticate prevState fd env w = (Normal (Some "Something went wrong."), w))
  /\ (instanceof_AuthError e = false ->
      authenticate prevState fd env w = (Throw e, w)).
Proof.
  intros He.
  assert (Hrun : authenticate prevState fd env w
                 = match e with
                   | AuthError type =>
                       if String.eqb type "CredentialsSignin"
                       then (Normal (Some "Invalid credentials."), w)
                       else (Normal (Some "Something went wrong."), w)
                   | _ => (Throw e, w)
                   end).
  { unfold authenticate, try_catch, mbind, M_bind, bind, signIn. rewrite He.
    destruct e as [| | type | |]; try reflexivity.
    destruct (String.eqb type "CredentialsSignin"); reflexivity. }
  rewrite Hrun. split; [| split].
  - intros ->. reflexivity.
  - intros type -> ->. reflexivity.
  - destruct e; try reflexivity. discriminate.
Qed.

Lemma authenticate_outcomes_witness :
  authenticate None [] (answering (AuthError "CredentialsSignin")) emptyWorld
    = (Normal (Some "Invalid credentials."), emptyWorld)
  /\ authenticate None [] (answering (AuthError "CallbackRouteError")) emptyWorld
    = (Normal (Some "Something went wrong."), emptyWorld)
  /\ authenticate None [] (answering (PostgresError "connection refused")) emptyWorld
    = (Throw (PostgresError "connection refused"), emptyWorld).
Proof.
  split; [| split].
  - apply (proj1 (authenticate_outcomes None []
                    (answering (AuthError "CredentialsSignin")) emptyWorld
                    (AuthError "CredentialsSignin") eq_refl)); reflexivity.
  - apply (proj1 (proj2 (authenticate_outcomes None []
                           (answering (AuthError "CallbackRouteError")) emptyWorld
                           (AuthError "CallbackRouteError") eq_refl))
             "CallbackRouteError"); reflexivity.
  - apply (proj2 (proj2 (authenticate_outcomes None []
                           (answering (PostgresError "connection refused")) emptyWorld
                           (PostgresError "connection refused") eq_refl))); reflexivity.
Defined.

(** C10: [CreateInvoice] and [UpdateInvoice] are the same schema,
    [formSchema] without [id] and [date]; on every input they give
    the same validation result, and on invalid fields the two actions
    report the same field-error map. *)
Theorem create_and_update_validate_alike :
  CreateInvoice = UpdateInvoice
  /\ (forall k t, In (k, t) CreateInvoice <->
                  In (k, t) formSchema /\ k <> "id" /\ k <> "date")
  /\ (forall data, safeParse CreateInvoice data = safeParse UpdateInvoice data)
  /\ (forall id prevState fd env w,
        match safeParse CreateInvoice (rawFields fd) with
        | SafeParseError error =>
            reportedErrors (createInvoice prevState fd env w).1 = Some (fieldErrors error)
            /\ reportedErrors (updateInvoice id prevState fd env w).1
               = Some (fieldErrors error)
        | SafeParseSuccess data =>
            safeParse UpdateInvoice (rawFields fd) = SafeParseSuccess data
        end).
Proof.
  split; [reflexivity |]. split; [| split; [reflexivity |]].
  - intros k t. rewrite CreateInvoice_shape. unfold formSchema. cbn [In]. split.
    + intros [H | [H | [H | []]]]; inversion H; subst;
        (split; [tauto | split; discriminate]).
    + intros [[H | [H | [H | [H | [H | []]]]]] [Hid Hdate]]; inversion H; subst;
        solve [now destruct Hid | now destruct Hdate | tauto].
  - intros id prevState fd env w.
    destruct (safeParse CreateInvoice (rawFields fd)) as [data | error] eqn:H;
      [exact H |].
    rewrite (createInvoice_error_run _ _ _ _ _ H), (updateInvoice_error_run _ _ _ _ _ _ H).
    split; reflexivity.
Qed.

(** A form with no [customerId] entry: validation fails and the
    field-error map holds exactly the message "Please select a
    customer" under [customerId], whatever the other fields are;
    [createInvoice] then stores nothing and sends no statement. *)
Theorem missing_customerId_is_rejected
    (prevState : State) (fd : FormData) (env : Env) (w : World) :
  get fd "customerId" = null ->
  exists error,
    safeParse CreateInvoice (rawFields fd) = SafeParseError error
    /\ fieldErrors error !! "customerId" = Some ["Please select a customer"]
    /\ invoices (createInvoice prevState fd env w).2 = invoices w
    /\ issued (createInvoice prevState fd env w).2 = issued w.
Proof.
  intros Hc.
  assert (Hinv : safeParse CreateInvoice (rawFields fd) = SafeParseError (issuesOf fd)).
  { apply safeParse_invalid. unfold issuesOf.
    rewrite (parse_customerId _ (get_defined _ _)), Hc. discriminate. }
  exists (issuesOf fd). split; [exact Hinv |]. split.
  - rewrite fieldErrors_issuesOf, (parse_customerId _ (get_defined _ _)), Hc.
    reflexivity.
  - rewrite (createInvoice_error_run _ _ _ _ _ Hinv). split; reflexivity.
Qed.

Lemma missing_customerId_is_rejected_witness :
  let fd := [("amount", EntryString "50"); ("status", EntryString "paid")] in
  get fd "customerId" = null
  /\ exists error,
       safeParse CreateInvoice (rawFields fd) = SafeParseError error
       /\ fieldErrors error !! "customerId" = Some ["Please select a customer"]
       /\ invoices (createInvoice noState fd calm twoInvoices).2 = invoices twoInvoices
       /\ issued (createInvoice noState fd calm twoInvoices).2 = issued twoInvoices.
Proof.
  cbv zeta. split; [reflexivity |].
  apply missing_customerId_is_rejected. reflexivity.
Defined.

(** C2: in the scenario of section 8, where [customerId] is the empty
    string, an error "Please select a customer" and no inserted row
    are expected, and the comment on the schema says that Zod raises
    an error when the customer field is empty.  The code does
    otherwise: the rule only asks for a string, so the form is valid,
    no error is reported and a row with an empty customer is
    inserted. *)
Lemma empty_customerId_is_accepted :
  let fd := form "" "50" "paid" in
  get fd "customerId" = Str ""
  /\ (exists data, safeParse CreateInvoice (rawFields fd) = SafeParseSuccess data)
  /\ ~ (exists error,
          safeParse CreateInvoice (rawFields fd) = SafeParseError error
          /\ fieldErrors error !! "customerId" = Some ["Please select a customer"])
  /\ invoices (createInvoice noState fd calm emptyWorld).2
     = [{| id := "inv-3"; customer_id := Str ""; amount := Num (ofZ 5000);
           status := Str "paid"; date := Str "2023-11-14" |}].
Proof.
  cbv zeta. split; [reflexivity |]. split; [eexists; vm_compute; reflexivity |].
  split; [| vm_compute; reflexivity].
  intros (error & H & _). vm_compute in H. discriminate H.
Qed.

(** C3, in the form that holds of the code: for every valid field set, [createInvoice] sends
    exactly one INSERT whose amount is the submitted amount times 100
    (the binary64 product, not rounded), whose customer and status are
    the validated ones and whose date is the UTC calendar date of the
    invocation.  When the store accepts the statement exactly one row
    with these values is added and the action redirects; when the
    store raises, no row is added and the action returns "Database
    Error: Failed to Create Invoice". *)
Theorem createInvoice_valid_inserts_one_row
    (prevState : State) (fd : FormData) (env : Env) (w : World) (data : object) :
  safeParse CreateInvoice (rawFields fd) = SafeParseSuccess data ->
  Z.abs (clock env) <= JsDate.maxTime ->
  let amountInCents := Num (mul (ToNumber (get fd "amount")) (ofZ 100)) in
  let today := Str (JsDate.utcDate (clock env)) in
  let stmt := INSERT_INTO_invoices (get fd "customerId") amountInCents
                                   (get fd "status") today in
  let (outcome, w') := createInvoice prevState fd env w in
  prop data "status" = get fd "status"
  /\ (get fd "status" = Str "pending" \/ get fd "status" = Str "paid")
  /\ issued w' = issued w ++ [stmt]
  /\ (sql_raises env = None ->
      outcome = Throw (NEXT_REDIRECT "/dashboard/invoices")
      /\ invoices w' = invoices w ++
           [{| id := generated_id env; customer_id := get fd "customerId";
               amount := amountInCents; status := get fd "status"; date := today |}])
  /\ (forall msg, sql_raises env = Some msg ->
      outcome = Normal {| errors := None;
                          message := Some "Database Error: Failed to Create Invoice" |}
      /\ invoices w' = invoices w).
Proof.
  intros H Hclock. cbv zeta.
  rewrite (createInvoice_success_run _ _ _ _ _ H Hclock).
  destruct (safeParse_success _ _ H) as (_ & _ & _ & Hst & -> & -> & ->).
  cbv zeta. unfold times. cbn [ToNumber].
  destruct (sql_raises env) as [msg |].
  - split; [reflexivity |]. split; [exact Hst |]. split; [reflexivity |].
    split; [discriminate |]. intros msg' _. split; reflexivity.
  - split; [reflexivity |]. split; [exact Hst |]. split; [reflexivity |].
    split; [intros _; split; reflexivity |]. discriminate.
Qed.

Lemma createInvoice_valid_inserts_one_row_witness :
  let fd := form "c1" "25.50" "pending" in
  Z.abs (clock calm) <= JsDate.maxTime
  /\ (exists data, safeParse CreateInvoice (rawFields fd) = SafeParseSuccess data)
  /\ invoices (createInvoice noState fd calm emptyWorld).2
     = [{| id := "inv-3"; customer_id := Str "c1"; amount := Num (ofZ 2550);
           status := Str "pending"; date := Str "2023-11-14" |}]
  /\ invoices (createInvoice noState fd failing emptyWorld).2 = [].
Proof.
  cbv zeta. split; [vm_compute; discriminate |].
  split; [eexists; vm_compute; reflexivity |].
  assert (Hv : exists data,
             safeParse CreateInvoice (rawFields (form "c1" "25.50" "pending"))
             = SafeParseSuccess data) by (eexists; vm_compute; reflexivity).
  destruct Hv as [data Hv]. split.
  - pose proof (createInvoice_valid_inserts_one_row noState _ calm emptyWorld data Hv
                  ltac:(vm_compute; discriminate)) as Hrun.
    cbv zeta in Hrun.
    destruct (createInvoice noState (form "c1" "25.50" "pending") calm emptyWorld)
      as [outcome w'].
    destruct Hrun as (_ & _ & _ & Hok & _).
    cbn [snd]. destruct (Hok eq_refl) as [_ ->]. vm_compute. reflexivity.
  - pose proof (createInvoice_valid_inserts_one_row noState _ failing emptyWorld data Hv
                  ltac:(vm_compute; discriminate)) as Hrun.
    cbv zeta in Hrun.
    destruct (createInvoice noState (form "c1" "25.50" "pending") failing emptyWorld)
      as [outcome w'].
    destruct Hrun as (_ & _ & _ & _ & Hko).
    cbn [snd]. destruct (Hko _ eq_refl) as [_ ->]. reflexivity.
Defined.

(** Against C3 as stated: a valid amount whose hundredfold is not an
    integer.  "0.125" is stored as 12.5, while the rounded value would
    be 13. *)
Lemma createInvoice_does_not_round :
  let fd := form "c1" "0.125" "pending" in
  (exists data, safeParse CreateInvoice (rawFields fd) = SafeParseSuccess data)
  /\ issued (createInvoice noState fd calm emptyWorld).2
     = [INSERT_INTO_invoices (Str "c1") (Num (StringToNumber "12.5")) (Str "pending")
                             (Str "2023-11-14")]
  /\ invoices (createInvoice noState fd calm emptyWorld).2
     = [{| id := "inv-3"; customer_id := Str "c1"; amount := Num (StringToNumber "12.5");
           status := Str "pending"; date := Str "2023-11-14" |}]
  /\ round (mul (StringToNumber "0.125") (ofZ 100)) = ofZ 13
  /\ Num (StringToNumber "12.5") <> Num (round (mul (StringToNumber "0.125") (ofZ 100))).
Proof.
  cbv zeta. split; [eexists; vm_compute; reflexivity |].
  split; [vm_compute; reflexivity |]. split; [vm_compute; reflexivity |].
  split; [vm_compute; reflexivity |]. vm_compute. discriminate.
Qed.

(** C7, in the form that holds of the code: the raw amounts "0" and "" both fail validation
    with one and the same message, the one [formSchema] attaches to
    its strict minimum [gt(0)]: the empty input coerces to 0 and the
    constraint [amount > 0] rejects it.  Unparseable input such as
    "abc" coerces to NaN, not to 0, and is rejected with "Expected
    number, received nan". *)
Theorem zero_and_empty_amount_share_a_message :
  exists msg,
    In ("amount", gt coerce_number (ofZ 0) msg) formSchema
    /\ ToNumber (Str "") = ofZ 0
    /\ ToNumber (Str "abc") = NaN
    /\ (forall fd, get fd "amount" = Str "0" \/ get fd "amount" = Str "" ->
          exists error,
            safeParse CreateInvoice (rawFields fd) = SafeParseError error
            /\ fieldErrors error !! "amount" = Some [msg])
    /\ (forall fd, get fd "amount" = Str "abc" ->
          exists error,
            safeParse CreateInvoice (rawFields fd) = SafeParseError error
            /\ fieldErrors error !! "amount" = Some ["Expected number, received nan"]).
Proof.
  eexists. split; [right; right; left; reflexivity |].
  split; [reflexivity |]. split; [reflexivity |].
  assert (Hgo : forall fd a r c m,
             get fd "amount" = Str a ->
             parse amountRule ["amount"] (Str a)
             = (r, [{| code := c; path := ["amount"]; Zod.message := m |}]) ->
             exists error,
               safeParse CreateInvoice (rawFields fd) = SafeParseError error
               /\ fieldErrors error !! "amount" = Some [m]).
  { intros fd a r c m Ha Hparse. exists (issuesOf fd).
    assert (Hi : (parse amountRule ["amount"] (get fd "amount")).2
                 = [{| code := c; path := ["amount"]; Zod.message := m |}]).
    { rewrite Ha, Hparse. reflexivity. }
    split.
    - apply safeParse_invalid. unfold issuesOf. rewrite Hi.
      destruct (parse customerIdRule _ _).2; discriminate.
    - rewrite fieldErrors_issuesOf, Hi. reflexivity. }
  split.
  - intros fd [Ha | Ha]; eapply (Hgo fd _ _ _ _ Ha); reflexivity.
  - intros fd Ha. eapply (Hgo fd _ _ _ _ Ha). reflexivity.
Qed.

Lemma zero_and_empty_amount_share_a_message_witness :
  exists msg e0 e1 e2,
    safeParse CreateInvoice (rawFields (form "c1" "0" "paid")) = SafeParseError e0
    /\ safeParse CreateInvoice (rawFields (form "c1" "" "paid")) = SafeParseError e1
    /\ safeParse CreateInvoice (rawFields (form "c1" "abc" "paid")) = SafeParseError e2
    /\ fieldErrors e0 !! "amount" = Some [msg]
    /\ fieldErrors e1 !! "amount" = Some [msg]
    /\ fieldErrors e2 !! "amount" = Some ["Expected number, received nan"].
Proof.
  destruct zero_and_empty_amount_share_a_message as (msg & _ & _ & _ & Hzero & Hnan).
  destruct (Hzero (form "c1" "0" "paid") (or_introl eq_refl)) as (e0 & H0 & M0).
  destruct (Hzero (form "c1" "" "paid") (or_intror eq_refl)) as (e1 & H1 & M1).
  destruct (Hnan (form "c1" "abc" "paid") eq_refl) as (e2 & H2 & M2).
  exists msg, e0, e1, e2. repeat (split; [assumption |]). assumption.
Defined.

(** Against C7 as stated: the amounts "0" and "abc" are answered with
    different messages, and "abc" does not coerce to 0. *)
Lemma unparseable_amount_has_its_own_message :
  let amountErrors (a : string) :=
    match safeParse CreateInvoice (rawFields (form "c1" a "paid")) with
    | SafeParseError error => fieldErrors error !! "amount"
    | SafeParseSuccess _ => None
    end in
  amountErrors "abc" = Some ["Expected number, received nan"]
  /\ amountErrors "0" <> amountErrors "abc"
  /\ amountErrors "abc" <> Some ["Please enter an amount greater than $0."]
  /\ ToNumber (Str "abc") <> ofZ 0.
Proof.
  cbv zeta. split; [vm_compute; reflexivity |].
  split; [vm_compute; discriminate |]. split; vm_compute; discriminate.
Qed.

(** C8: [updateInvoice] keeps the [id] and the [date] of every stored
    row, for every id and every field set; a row of another id is
    left as it was.  When the fields are valid the one statement it
    sends is the UPDATE of [customer_id], [amount] and [status] for
    that id. *)
Theorem updateInvoice_keeps_id_and_date
    (id : string) (prevState : State) (fd : FormData) (env : Env) (w : World) :
  let w' := (updateInvoice id prevState fd env w).2 in
  Sql.id <$> invoices w' = Sql.id <$> invoices w
  /\ Sql.date <$> invoices w' = Sql.date <$> invoices w
  /\ (forall k r, invoices w !! k = Some r ->
        exists r', invoices w' !! k = Some r'
                   /\ Sql.id r' = Sql.id r /\ Sql.date r' = Sql.date r
                   /\ (Sql.id r <> id -> r' = r))
  /\ (forall data, safeParse UpdateInvoice (rawFields fd) = SafeParseSuccess data ->
        issued w' = issued w ++
          [UPDATE_invoices_SET (prop data "customerId")
             (times (prop data "amount") (Num (ofZ 100))) (prop data "status") id]).
Proof.
  cbv zeta.
  destruct (safeParse UpdateInvoice (rawFields fd)) as [data | error] eqn:H.
  - rewrite (updateInvoice_success_run _ _ _ _ _ _ H). cbv zeta.
    destruct (sql_raises env) as [msg |]; cbn [snd invoices issued].
    + split; [reflexivity |]. split; [reflexivity |]. split; [eauto 10 |].
      intros data' [= <-]. reflexivity.
    + split; [| split; [| split]].
      * cbn [apply]. rewrite <- list_fmap_compose. apply list_fmap_ext.
        intros k r _. cbn. destruct (String.eqb (Sql.id r) id); reflexivity.
      * cbn [apply]. rewrite <- list_fmap_compose. apply list_fmap_ext.
        intros k r _. cbn. destruct (String.eqb (Sql.id r) id); reflexivity.
      * intros k r Hk.
        destruct (update_rows (prop data "customerId")
                    (times (prop data "amount") (Num (ofZ 100))) (prop data "status")
                    id (generated_id env) _ _ _ Hk) as (r' & ? & ? & ? & ? & _).
        eauto 10.
      * intros data' [= <-]. reflexivity.
  - rewrite (updateInvoice_error_run _ _ _ _ _ _ H). cbn [snd].
    split; [reflexivity |]. split; [reflexivity |]. split; [eauto 10 | discriminate].
Qed.

Lemma updateInvoice_keeps_id_and_date_witness :
  let fd := form "c9" "12.00" "paid" in
  let w' := (updateInvoice "inv-1" noState fd calm twoInvoices).2 in
  (exists data, safeParse UpdateInvoice (rawFields fd) = SafeParseSuccess data)
  /\ Sql.id <$> invoices w' = ["inv-1"; "inv-2"]
  /\ Sql.date <$> invoices w' = [Str "2023-10-01"; Str "2023-10-02"]
  /\ Sql.customer_id <$> invoices w' = [Str "c9"; Str "c2"]
  /\ Sql.amount <$> invoices w' = [Num (ofZ 1200); Num (ofZ 990)]
  /\ length (issued w') = 1%nat.
Proof.
  cbv zeta.
  assert (Hv : exists data,
             safeParse UpdateInvoice (rawFields (form "c9" "12.00" "paid"))
             = SafeParseSuccess data) by (eexists; vm_compute; reflexivity).
  split; [exact Hv |]. destruct Hv as [data Hv].
  destruct (updateInvoice_keeps_id_and_date "inv-1" noState (form "c9" "12.00" "paid")
              calm twoInvoices) as (Hid & Hdate & _ & Hstmt).
  split; [rewrite Hid; reflexivity |]. split; [rewrite Hdate; reflexivity |].
  split; [vm_compute; reflexivity |]. split; [vm_compute; reflexivity |].
  rewrite (Hstmt data Hv). reflexivity.
Defined.

(** C9, in the form that holds of the code: a status of exactly "pending" or "paid" contributes
    no status error.  Every other raw status makes validation fail
    with one status error: "Please select an invoice status" when the
    value is not a string (no status was submitted), and Zod's
    "Invalid enum value. Expected 'pending' | 'paid', received '...'"
    when it is a string outside the enumeration. *)
Theorem status_rule (fd : FormData) :
  (get fd "status" = Str "pending" \/ get fd "status" = Str "paid" ->
   forall error, safeParse CreateInvoice (rawFields fd) = SafeParseError error ->
                 fieldErrors error !! "status" = None)
  /\ (get fd "status" <> Str "pending" -> get fd "status" <> Str "paid" ->
      exists error,
        safeParse CreateInvoice (rawFields fd) = SafeParseError error
        /\ fieldErrors error !! "status"
           = Some [match get fd "status" with
                   | Str s => "Invalid enum value. Expected 'pending' | 'paid', received '"
                              +:+ s +:+ "'"
                   | _ => "Please select an invoice status"
                   end]).
Proof.
  split.
  - intros Hs error H. apply safeParse_error in H as ->.
    rewrite fieldErrors_issuesOf, (parse_status _ (get_defined _ _)).
    destruct Hs as [-> | ->]; cbn; rewrite ?app_nil_r; reflexivity.
  - intros Hp Hd.
    assert (Hi : (parse statusRule ["status"] (get fd "status")).2
                 = [{| code := match get fd "status" with
                               | Str _ => invalid_enum_value
                               | _ => invalid_type
                               end;
                       path := ["status"];
                       Zod.message :=
                         match get fd "status" with
                         | Str s => "Invalid enum value. Expected 'pending' | 'paid', received '"
                                    +:+ s +:+ "'"
                         | _ => "Please select an invoice status"
                         end |}]).
    { rewrite (parse_status _ (get_defined _ _)).
      destruct (get fd "status") as [| | n | s | f]; try reflexivity.
      destruct (String.eqb_spec s "pending") as [-> | _]; [now destruct Hp |].
      destruct (String.eqb_spec s "paid") as [-> | _]; [now destruct Hd |].
      reflexivity. }
    exists (issuesOf fd). split.
    + apply safeParse_invalid. unfold issuesOf. rewrite Hi.
      destruct (parse customerIdRule _ _).2, (parse amountRule _ _).2; discriminate.
    + rewrite fieldErrors_issuesOf, Hi. cbn. rewrite ?app_nil_r. reflexivity.
Qed.

Lemma status_rule_witness :
  (forall error,
     safeParse CreateInvoice (rawFields [("status", EntryString "paid")])
     = SafeParseError error ->
     fieldErrors error !! "status" = None)
  /\ (exists error,
        safeParse CreateInvoice (rawFields (form "c1" "50" "draft")) = SafeParseError error
        /\ fieldErrors error !! "status"
           = Some ["Invalid enum value. Expected 'pending' | 'paid', received 'draft'"])
  /\ (exists error,
        safeParse CreateInvoice (rawFields []) = SafeParseError error
        /\ fieldErrors error !! "status" = Some ["Please select an invoice status"]).
Proof.
  split; [| split].
  - apply (proj1 (status_rule [("status", EntryString "paid")])). right. reflexivity.
  - apply (proj2 (status_rule (form "c1" "50" "draft"))); discriminate.
  - apply (proj2 (status_rule [])); discriminate.
Defined.

(** Against C9 as stated: a submitted status outside the enumeration
    is not answered with the custom text. *)
Lemma unknown_status_gets_the_default_message :
  exists error,
    safeParse CreateInvoice (rawFields (form "c1" "50" "draft")) = SafeParseError error
    /\ fieldErrors error !! "status"
       = Some ["Invalid enum value. Expected 'pending' | 'paid', received 'draft'"]
    /\ fieldErrors error !! "status" <> Some ["Please select an invoice status"].
Proof.
  eexists. split; [vm_compute; reflexivity |].
  split; [vm_compute; reflexivity |]. vm_compute. discriminate.
Qed.

End Properties.

(* ===================================================================== *)
(** * Worked examples *)
(* ===================================================================== *)

Section Examples.

Import JsNumber Js Zod Sql Server Actions AuthConfig Spec.

(** The scenario of section 8: "25.50" is stored as 2550. *)
Example amount_25_50 : times (Num (StringToNumber "25.50")) (Num (ofZ 100)) = Num (ofZ 2550).
Proof. vm_compute. reflexivity. Qed.

(** The product is the binary64 one: 19.99 * 100 is
    1998.9999999999998, the double just below 1999. *)
Example amount_19_99 :
  mul (StringToNumber "19.99") (ofZ 100) = StringToNumber "1998.9999999999998"
  /\ mul (StringToNumber "19.99") (ofZ 100) <> ofZ 1999
  /\ round (mul (StringToNumber "19.99") (ofZ 100)) = ofZ 1999.
Proof.
  split; [vm_compute; reflexivity |]. split; [vm_compute; discriminate |].
  vm_compute. reflexivity.
Qed.

(** The text of the amount message, as the source spells it. *)
Example amount_message_as_written :
  exists error,
    safeParse CreateInvoice (rawFields (form "c1" "0" "paid")) = SafeParseError error
    /\ fieldErrors error = {[ "amount" := ["Please enter an amount greater tahn $0."] ]}.
Proof. eexists. split; vm_compute; reflexivity. Qed.

(** A form with nothing filled in: one message per field. *)
Example empty_form :
  createInvoice noState [] calm emptyWorld
  = (Normal {| errors := Some {[ "customerId" := ["Please select a customer"];
                                 "amount" := ["Please enter an amount greater tahn $0."];
                                 "status" := ["Please select an invoice status"] ]};
               message := Some "Missing Fields. Failed to Create Invoice." |},
     emptyWorld).
Proof. vm_compute. reflexivity. Qed.

(** An uploaded file where the customer is expected is no string. *)
Example file_as_customerId :
  exists error,
    safeParse CreateInvoice
      (rawFields [("customerId", EntryFile "a.png"); ("amount", EntryString "5");
                  ("status", EntryString "paid")]) = SafeParseError error
    /\ fieldErrors error = {[ "customerId" := ["Please select a customer"] ]}.
Proof. eexists. split; vm_compute; reflexivity. Qed.

(** A store that raises: the update reports the database error, logs
    it and changes no row. *)
Example update_with_failing_store :
  updateInvoice "inv-1" noState (form "c9" "12.00" "paid") failing twoInvoices
  = (Normal {| errors := None;
               message := Some "Database Error: Failed to Update Invoice" |},
     {| invoices := invoices twoInvoices;
        issued := [UPDATE_invoices_SET (Str "c9") (Num (ofZ 1200)) (Str "paid") "inv-1"];
        revalidated := [];
        console := [PostgresError "connection refused"] |}).
Proof. vm_compute. reflexivity. Qed.

(** The two scenarios of the gate. *)
Example login_when_signed_in :
  decision (authorized (Some {| user := Some {| name := "A"; email := "a@b.c" |};
                                expires := "" |})
              {| origin := "http://localhost:3000"; pathname := "/login";
                 search := ""; hash := "" |})
  = redirect_to "/dashboard".
Proof. reflexivity. Qed.

Example dashboard_when_signed_out :
  authorized None {| origin := "http://localhost:3000"; pathname := "/dashboard/invoices";
                     search := ""; hash := "" |}
  = Boolean false.
Proof. reflexivity. Qed.

(** Dates at the edges of the calendar. *)
Example iso_epoch : JsDate.toISOString (JsDate.TimeClip 0) = Some "1970-01-01T00:00:00.000Z".
Proof. vm_compute. reflexivity. Qed.

Example iso_leap_day :
  JsDate.toISOString (JsDate.TimeClip 951782400000) = Some "2000-02-29T00:00:00.000Z".
Proof. vm_compute. reflexivity. Qed.

Example iso_before_epoch :
  JsDate.toISOString (JsDate.TimeClip (-1)) = Some "1969-12-31T23:59:59.999Z".
Proof. vm_compute. reflexivity. Qed.

Example iso_out_of_range : JsDate.toISOString (JsDate.TimeClip 8640000000000001) = None.
Proof. vm_compute. reflexivity. Qed.

End Examples.

(* ===================================================================== *)
(** * More about the rules and the store *)
(* ===================================================================== *)

Section MoreFacts.

Import JsNumber Js Zod Sql Server Actions Spec.

(** [0 < n] on numbers: [n] is a number and is not [<= 0]. *)
Lemma positive_number (n : number) :
  ltb (ofZ 0) n = true <-> isNaN n = false /\ leb n (ofZ 0) = false.
Proof.
  destruct n as [s | s | | s m e]; try destruct s; cbn; intuition congruence.
Qed.

Lemma parse_clean_OK (t : ZodType) (p : list string) (v : value) :
  (parse t p v).2 = [] -> exists x, parse t p v = (OK x, []).
Proof.
  destruct t as [ite | c checks | values ite]; cbn [parse].
  - destruct v; cbn; try discriminate; eauto.
  - destruct (if c then Num (ToNumber v) else v) as [| | n | |]; cbn; try discriminate.
    destruct (isNaN n); cbn; [discriminate |].
    destruct (runChecks p n checks); cbn; [eauto | discriminate].
  - destruct v as [| | | s |]; cbn; try discriminate.
    destruct (existsb (String.eqb s) values); cbn; [eauto | discriminate].
Qed.

(** The messages of each rule, read off the raw value. *)
Lemma customerId_messages (fd : FormData) :
  Zod.message <$> (parse customerIdRule ["customerId"] (get fd "customerId")).2
  = match get fd "customerId" with
    | Str _ => []
    | _ => ["Please select a customer"]
    end.
Proof.
  rewrite (parse_customerId _ (get_defined _ _)).
  destruct (get fd "customerId"); reflexivity.
Qed.

Lemma amount_messages (fd : FormData) :
  Zod.message <$> (parse amountRule ["amount"] (get fd "amount")).2
  = let n := ToNumber (get fd "amount") in
    if isNaN n then ["Expected number, received nan"]
    else if leb n (ofZ 0) then ["Please enter an amount greater tahn $0."]
    else [].
Proof.
  unfold amountRule. rewrite parse_amount. cbv zeta.
  destruct (isNaN _); [reflexivity |]. destruct (leb _ _); reflexivity.
Qed.

Lemma status_messages (fd : FormData) :
  Zod.message <$> (parse statusRule ["status"] (get fd "status")).2
  = match get fd "status" with
    | Str s =>
        if String.eqb s "pending" || String.eqb s "paid" then []
        else ["Invalid enum value. Expected 'pending' | 'paid', received '" +:+ s +:+ "'"]
    | _ => ["Please select an invoice status"]
    end.
Proof.
  rewrite (parse_status _ (get_defined _ _)).
  destruct (get fd "status") as [| | | s |]; try reflexivity.
  destruct (String.eqb s "pending" || String.eqb s "paid"); reflexivity.
Qed.

(** A form that fails validation has at least one issue. *)
Lemma issuesOf_nonempty (fd : FormData) (error : ZodError) :
  safeParse CreateInvoice (rawFields fd) = SafeParseError error -> issuesOf fd <> [].
Proof.
  intros H Hnil. rewrite safeParse_fields in H. unfold issuesOf in Hnil.
  apply app_eq_nil in Hnil as [Hc Hnil]. apply app_eq_nil in Hnil as [Ha Hs].
  apply parse_clean_OK in Hc as [c Hc], Ha as [a Ha], Hs as [s Hs].
  rewrite Hc, Ha, Hs in H. discriminate H.
Qed.

(** The fields that pass all three rules parse to themselves, the
    amount as a number. *)
Lemma safeParse_valid (fd : FormData) (c : string) :
  get fd "customerId" = Str c ->
  ltb (ofZ 0) (ToNumber (get fd "amount")) = true ->
  get fd "status" = Str "pending" \/ get fd "status" = Str "paid" ->
  safeParse CreateInvoice (rawFields fd)
  = SafeParseSuccess {[ "customerId" := get fd "customerId";
                        "amount" := Num (ToNumber (get fd "amount"));
                        "status" := get fd "status" ]}.
Proof.
  intros Hc Hn Hs. apply positive_number in Hn as [Hnan Hle].
  change (ofZ 0) with (zero false) in Hle.
  rewrite safeParse_fields.
  rewrite (parse_customerId _ (get_defined _ _)), (parse_status _ (get_defined _ _)).
  unfold amountRule. rewrite parse_amount. cbv zeta.
  rewrite Hc, Hnan, Hle. destruct Hs as [-> | ->]; reflexivity.
Qed.

(** [formData.get] does not see entries of another name. *)
Lemma get_skips (fd1 fd2 : FormData) (k name : string) (v : FormDataEntryValue) :
  k <> name -> get (fd1 ++ (k, v) :: fd2) name = get (fd1 ++ fd2) name.
Proof.
  intros Hk. induction fd1 as [|[k' v'] fd1 IH]; cbn [app get].
  - destruct (String.eqb_spec k name); [contradiction | reflexivity].
  - destruct (String.eqb k' name); [reflexivity | exact IH].
Qed.

(** Sending the same UPDATE again changes nothing more. *)
Lemma apply_update_again (c a st : value) (i fresh fresh' : string) (table : list Invoice) :
  apply (UPDATE_invoices_SET c a st i) fresh'
    (apply (UPDATE_invoices_SET c a st i) fresh table)
  = apply (UPDATE_invoices_SET c a st i) fresh table.
Proof.
  cbn [apply]. rewrite <- list_fmap_compose. apply list_fmap_ext.
  intros k r _. cbn.
  destruct (String.eqb (id r) i) eqn:Hi; cbn; rewrite Hi; reflexivity.
Qed.

(** An UPDATE for an id no row has leaves the table as it is. *)
Lemma apply_update_absent (c a st : value) (i fresh : string) (table : list Invoice) :
  Forall (fun r => id r <> i) table ->
  apply (UPDATE_invoices_SET c a st i) fresh table = table.
Proof.
  intros Hall. cbn [apply]. induction Hall as [|r table Hr _ IH]; [reflexivity |].
  cbn [fmap list_fmap]. destruct (String.eqb_spec (id r) i); [contradiction |].
  f_equal. exact IH.
Qed.

(** [startsWith] holds exactly of the strings that extend the prefix. *)
Lemma startsWith_spec (s p : string) :
  JsString.startsWith s p = true <-> exists rest, s = p +:+ rest.
Proof.
  revert s. induction p as [|c p IH]; intros s; cbn [JsString.startsWith].
  - split; [intros _; exists s; reflexivity | reflexivity].
  - destruct s as [|d s].
    + split; [discriminate | intros [rest H]; discriminate H].
    + destruct (Ascii.eqb_spec c d) as [-> | Hne].
      * rewrite IH. split; intros [rest H]; exists rest.
        -- rewrite append_cons. congruence.
        -- rewrite append_cons in H. congruence.
      * split; [discriminate |]. intros [rest H].
        rewrite append_cons in H. congruence.
Qed.

End MoreFacts.

(* ===================================================================== *)
(** * Further properties of the actions *)
(* ===================================================================== *)

Section FurtherProperties.

Import JsNumber Js Zod Sql Server Actions AuthConfig Spec.

Lemma fieldErrors_nonempty (fd : FormData) (error : ZodError) :
  safeParse CreateInvoice (rawFields fd) = SafeParseError error ->
  fieldErrors error <> ∅.
Proof.
  intros H Hempty. pose proof (issuesOf_nonempty _ _ H) as Hne.
  apply safeParse_error in H as ->.
  pose proof (fieldErrors_issuesOf fd "customerId") as Hc.
  pose proof (fieldErrors_issuesOf fd "amount") as Ha.
  pose proof (fieldErrors_issuesOf fd "status") as Hs.
  rewrite Hempty, lookup_empty in Hc, Ha, Hs.
  unfold issuesOf in Hne.
  set (ic := (parse customerIdRule ["customerId"] (get fd "customerId")).2) in *.
  set (ia := (parse amountRule ["amount"] (get fd "amount")).2) in *.
  set (ist := (parse statusRule ["status"] (get fd "status")).2) in *.
  clearbody ic ia ist. cbn in Hc, Ha, Hs.
  destruct ic; [| discriminate Hc]. destruct ia; [| discriminate Ha].
  destruct ist; [| discriminate Hs]. now apply Hne.
Qed.

(** X7: validation succeeds exactly when the customer is a string (the
    empty one included), [Number(amount)] is a number greater than 0
    and the status is "pending" or "paid"; the validated data are then
    the customer and status as submitted and the amount as a number,
    and nothing else. *)
Theorem validation_succeeds_exactly_when (fd : FormData) :
  ((exists data, safeParse CreateInvoice (rawFields fd) = SafeParseSuccess data)
   <-> ((exists c, get fd "customerId" = Str c)
        /\ ltb (ofZ 0) (ToNumber (get fd "amount")) = true
        /\ (get fd "status" = Str "pending" \/ get fd "status" = Str "paid")))
  /\ (forall data, safeParse CreateInvoice (rawFields fd) = SafeParseSuccess data ->
        data = {[ "customerId" := get fd "customerId";
                  "amount" := Num (ToNumber (get fd "amount"));
                  "status" := get fd "status" ]}).
Proof.
  assert (Hif : forall data,
             safeParse CreateInvoice (rawFields fd) = SafeParseSuccess data ->
             (exists c, get fd "customerId" = Str c)
             /\ ltb (ofZ 0) (ToNumber (get fd "amount")) = true
             /\ (get fd "status" = Str "pending" \/ get fd "status" = Str "paid")).
  { intros data H. destruct (safeParse_success _ _ H) as (Hc & Hnan & Hle & Hs & _).
    split; [exact Hc |]. split; [| exact Hs]. apply positive_number. now split. }
  split; [split |].
  - intros [data H]. exact (Hif data H).
  - intros ([c Hc] & Hn & Hs). eexists. exact (safeParse_valid fd c Hc Hn Hs).
  - intros data H. destruct (Hif data H) as ([c Hc] & Hn & Hs).
    rewrite (safeParse_valid fd c Hc Hn Hs) in H. congruence.
Qed.

Lemma validation_succeeds_exactly_when_witness :
  (exists data, safeParse CreateInvoice (rawFields (form "" "0.01" "paid"))
                = SafeParseSuccess data)
  /\ (forall data, safeParse CreateInvoice (rawFields (form "" "0.01" "paid"))
                   = SafeParseSuccess data ->
                   prop data "amount" = Num (StringToNumber "0.01"))
  /\ ~ (exists data, safeParse CreateInvoice (rawFields (form "c1" "-3" "paid"))
                     = SafeParseSuccess data).
Proof.
  split; [| split].
  - apply (proj1 (validation_succeeds_exactly_when (form "" "0.01" "paid"))).
    split; [eexists; reflexivity |]. split; [vm_compute; reflexivity |].
    right. reflexivity.
  - intros data H.
    rewrite (proj2 (validation_succeeds_exactly_when (form "" "0.01" "paid")) data H).
    reflexivity.
  - intros H.
    apply (proj1 (validation_succeeds_exactly_when (form "c1" "-3" "paid"))) in H
      as (_ & Hn & _).
    vm_compute in Hn. discriminate Hn.
Defined.

(** X8: when validation fails the field-error map is not empty, its
    keys are among [customerId], [amount] and [status], and every key
    carries exactly one message. *)
Theorem field_errors_shape (fd : FormData) (error : ZodError) :
  safeParse CreateInvoice (rawFields fd) = SafeParseError error ->
  fieldErrors error <> ∅
  /\ (forall k ms, fieldErrors error !! k = Some ms ->
        (k = "customerId" \/ k = "amount" \/ k = "status") /\ exists m, ms = [m]).
Proof.
  intros H. split; [exact (fieldErrors_nonempty _ _ H) |].
  apply safeParse_error in H as ->. intros k ms.
  rewrite fieldErrors_issuesOf, customerId_messages, amount_messages, status_messages.
  cbv zeta.
  destruct (String.eqb_spec "customerId" k) as [<- | Hc].
  { cbn. rewrite ?app_nil_r.
    destruct (get fd "customerId"); intros [= <-]; eauto. }
  destruct (String.eqb_spec "amount" k) as [<- | Ha].
  { cbn. rewrite ?app_nil_r.
    destruct (isNaN _); [intros [= <-]; eauto |].
    destruct (leb _ _); intros [= <-]; eauto. }
  destruct (String.eqb_spec "status" k) as [<- | Hs]; [| discriminate].
  cbn. destruct (get fd "status") as [| | | s |]; try (intros [= <-]; eauto; fail).
  destruct (String.eqb s "pending" || String.eqb s "paid"); intros [= <-]; eauto.
Qed.

Lemma field_errors_shape_witness :
  exists error,
    safeParse CreateInvoice (rawFields (form "c1" "abc" "draft")) = SafeParseError error
    /\ fieldErrors error <> ∅
    /\ (forall k ms, fieldErrors error !! k = Some ms ->
          (k = "customerId" \/ k = "amount" \/ k = "status") /\ exists m, ms = [m]).
Proof.
  eexists. split; [vm_compute; reflexivity |].
  apply (field_errors_shape (form "c1" "abc" "draft")). vm_compute. reflexivity.
Defined.

(** X13: in the field-error map of a rejected form, [customerId] has
    the entry "Please select a customer" exactly when the submitted
    customer is not a string, and [amount] has "Expected number,
    received nan" when [Number(amount)] is NaN, the message of the
    minimum when it is a number not above 0 (a missing amount, which
    coerces to 0, included), and no entry otherwise. *)
Theorem customerId_and_amount_entries (fd : FormData) (error : ZodError) :
  safeParse CreateInvoice (rawFields fd) = SafeParseError error ->
  let n := ToNumber (get fd "amount") in
  fieldErrors error !! "customerId"
  = match get fd "customerId" with
    | Str _ => None
    | _ => Some ["Please select a customer"]
    end
  /\ fieldErrors error !! "amount"
     = (if isNaN n then Some ["Expected number, received nan"]
        else if leb n (ofZ 0) then Some ["Please enter an amount greater tahn $0."]
        else None)
  /\ (get fd "amount" = null -> n = ofZ 0).
Proof.
  intros H. apply safeParse_error in H as ->. cbv zeta.
  rewrite !fieldErrors_issuesOf, customerId_messages, amount_messages. cbv zeta.
  split; [| split].
  - cbn. rewrite ?app_nil_r. destruct (get fd "customerId"); reflexivity.
  - cbn. rewrite ?app_nil_r. destruct (isNaN _); [reflexivity |].
    destruct (leb _ _); reflexivity.
  - intros ->. reflexivity.
Qed.

Lemma customerId_and_amount_entries_witness :
  exists error,
    safeParse CreateInvoice (rawFields [("customerId", EntryString "");
                                        ("status", EntryString "paid")])
    = SafeParseError error
    /\ fieldErrors error !! "customerId" = None
    /\ fieldErrors error !! "amount" = Some ["Please enter an amount greater tahn $0."].
Proof.
  eexists. split; [vm_compute; reflexivity |].
  destruct (customerId_and_amount_entries
              [("customerId", EntryString ""); ("status", EntryString "paid")] _
              ltac:(vm_compute; reflexivity)) as (Hc & Ha & _).
  split; [exact Hc | exact Ha].
Defined.

End FurtherProperties.

Section ActionProperties.

Import JsNumber Js Zod Sql Server Actions AuthConfig Spec.

(** X1: when a rule is violated (the customer is not a string, or
    [Number(amount)] is not a number above 0, or the status is neither
    "pending" nor "paid"), [updateInvoice] returns a non-empty
    field-error map with the message "Missing Fields. Failed to Update
    Invoice." and leaves everything as it was: no statement is sent. *)
Theorem updateInvoice_rejects_invalid_fields
    (id : string) (prevState : State) (fd : FormData) (env : Env) (w : World) :
  (forall c, get fd "customerId" <> Str c)
  \/ ltb (ofZ 0) (ToNumber (get fd "amount")) = false
  \/ (get fd "status" <> Str "pending" /\ get fd "status" <> Str "paid") ->
  exists fieldErrs,
    updateInvoice id prevState fd env w
    = (Normal {| errors := Some fieldErrs;
                 message := Some "Missing Fields. Failed to Update Invoice." |}, w)
    /\ fieldErrs <> ∅.
Proof.
  intros Hbad.
  destruct (safeParse UpdateInvoice (rawFields fd)) as [data | error] eqn:H.
  - change UpdateInvoice with CreateInvoice in H.
    destruct (safeParse_success _ _ H) as ([c Hc] & Hnan & Hle & Hs & _).
    destruct Hbad as [Hbad | [Hbad | [Hp Hd]]].
    + now destruct (Hbad c).
    + assert (Hpos : ltb (ofZ 0) (ToNumber (get fd "amount")) = true)
        by (apply positive_number; now split).
      congruence.
    + destruct Hs; contradiction.
  - exists (fieldErrors error). split.
    + exact (updateInvoice_error_run _ _ _ _ _ _ H).
    + exact (fieldErrors_nonempty fd error H).
Qed.

Lemma updateInvoice_rejects_invalid_fields_witness :
  exists fieldErrs,
    updateInvoice "inv-1" noState (form "c1" "-3" "paid") calm twoInvoices
    = (Normal {| errors := Some fieldErrs;
                 message := Some "Missing Fields. Failed to Update Invoice." |}, twoInvoices)
    /\ fieldErrs <> ∅.
Proof.
  apply updateInvoice_rejects_invalid_fields. right. left. vm_compute. reflexivity.
Defined.

(** X2: with valid fields and a store that raises, [updateInvoice]
    sends its one statement, logs the error to the console, returns
    "Database Error: Failed to Update Invoice" without field errors,
    changes no row and revalidates nothing. *)
Theorem updateInvoice_store_failure
    (id : string) (prevState : State) (fd : FormData) (env : Env) (w : World)
    (data : object) (msg : string) :
  safeParse UpdateInvoice (rawFields fd) = SafeParseSuccess data ->
  sql_raises env = Some msg ->
  let (outcome, w') := updateInvoice id prevState fd env w in
  outcome = Normal {| errors := None;
                      message := Some "Database Error: Failed to Update Invoice" |}
  /\ invoices w' = invoices w
  /\ revalidated w' = revalidated w
  /\ console w' = console w ++ [PostgresError msg]
  /\ length (issued w') = S (length (issued w)).
Proof.
  intros H Hraise. rewrite (updateInvoice_success_run _ _ _ _ _ _ H). cbv zeta.
  rewrite Hraise. cbn [invoices revalidated console issued].
  rewrite length_app. cbn [length]. repeat split. lia.
Qed.

Lemma updateInvoice_store_failure_witness :
  let (outcome, w') :=
    updateInvoice "inv-1" noState (form "c9" "12.00" "paid") failing twoInvoices in
  outcome = Normal {| errors := None;
                      message := Some "Database Error: Failed to Update Invoice" |}
  /\ invoices w' = invoices twoInvoices
  /\ revalidated w' = revalidated twoInvoices
  /\ console w' = console twoInvoices ++ [PostgresError "connection refused"]
  /\ length (issued w') = S (length (issued twoInvoices)).
Proof.
  apply (updateInvoice_store_failure "inv-1" noState (form "c9" "12.00" "paid") failing
           twoInvoices
           {[ "customerId" := Str "c9"; "amount" := Num (ofZ 12); "status" := Str "paid" ]}
           "connection refused").
  - vm_compute. reflexivity.
  - reflexivity.
Defined.

(** X3: with valid fields and a store that accepts the statement,
    [updateInvoice] gives every row of the given id the submitted
    customer, the amount times 100 and the submitted status, keeps the
    number of rows, revalidates "/dashboard/invoices" and redirects
    there; nothing is logged. *)
Theorem updateInvoice_writes_matching_rows
    (id : string) (prevState : State) (fd : FormData) (env : Env) (w : World)
    (data : object) :
  safeParse UpdateInvoice (rawFields fd) = SafeParseSuccess data ->
  sql_raises env = None ->
  let (outcome, w') := updateInvoice id prevState fd env w in
  outcome = Throw (NEXT_REDIRECT "/dashboard/invoices")
  /\ revalidated w' = revalidated w ++ ["/dashboard/invoices"]
  /\ console w' = console w
  /\ length (invoices w') = length (invoices w)
  /\ (forall k r, invoices w !! k = Some r -> Sql.id r = id ->
        invoices w' !! k
        = Some {| Sql.id := Sql.id r; customer_id := get fd "customerId";
                  amount := Num (mul (ToNumber (get fd "amount")) (ofZ 100));
                  status := get fd "status"; date := Sql.date r |}).
Proof.
  intros H Hok. rewrite (updateInvoice_success_run _ _ _ _ _ _ H). cbv zeta.
  rewrite Hok. cbn [invoices revalidated console].
  change UpdateInvoice with CreateInvoice in H.
  destruct (safeParse_success _ _ H) as (_ & _ & _ & _ & -> & -> & ->).
  split; [reflexivity |]. split; [reflexivity |]. split; [reflexivity |].
  split; [cbn [apply]; apply length_fmap |].
  intros k r Hk Hid. cbn [apply]. rewrite list_lookup_fmap, Hk. cbn.
  rewrite <- Hid, String.eqb_refl. reflexivity.
Qed.

Lemma updateInvoice_writes_matching_rows_witness :
  let (outcome, w') :=
    updateInvoice "inv-2" noState (form "c9" "12.00" "pending") calm twoInvoices in
  outcome = Throw (NEXT_REDIRECT "/dashboard/invoices")
  /\ invoices w' !! 1%nat
     = Some {| Sql.id := "inv-2"; customer_id := Str "c9"; amount := Num (ofZ 1200);
               status := Str "pending"; date := Str "2023-10-02" |}.
Proof.
  assert (Hv : safeParse UpdateInvoice (rawFields (form "c9" "12.00" "pending"))
               = SafeParseSuccess {[ "customerId" := Str "c9"; "amount" := Num (ofZ 12);
                                     "status" := Str "pending" ]})
    by (vm_compute; reflexivity).
  pose proof (updateInvoice_writes_matching_rows "inv-2" noState
                (form "c9" "12.00" "pending") calm twoInvoices _ Hv eq_refl) as Hrun.
  destruct (updateInvoice "inv-2" noState (form "c9" "12.00" "pending") calm twoInvoices)
    as [outcome w'].
  destruct Hrun as (Ho & _ & _ & _ & Hrows).
  split; [exact Ho |].
  rewrite (Hrows 1%nat _ eq_refl eq_refl). vm_compute. reflexivity.
Defined.

(** X4: an id that no stored row has is not an error: with valid
    fields and an accepting store [updateInvoice] still revalidates and
    redirects, and the table is exactly as before. *)
Theorem updateInvoice_unknown_id
    (id : string) (prevState : State) (fd : FormData) (env : Env) (w : World)
    (data : object) :
  safeParse UpdateInvoice (rawFields fd) = SafeParseSuccess data ->
  sql_raises env = None ->
  Forall (fun r => Sql.id r <> id) (invoices w) ->
  let (outcome, w') := updateInvoice id prevState fd env w in
  outcome = Throw (NEXT_REDIRECT "/dashboard/invoices")
  /\ invoices w' = invoices w
  /\ revalidated w' = revalidated w ++ ["/dashboard/invoices"].
Proof.
  intros H Hok Habsent. rewrite (updateInvoice_success_run _ _ _ _ _ _ H). cbv zeta.
  rewrite Hok. cbn [invoices revalidated].
  rewrite (apply_update_absent _ _ _ _ _ _ Habsent). repeat split.
Qed.

Lemma updateInvoice_unknown_id_witness :
  let (outcome, w') :=
    updateInvoice "inv-404" noState (form "c9" "12.00" "paid") calm twoInvoices in
  outcome = Throw (NEXT_REDIRECT "/dashboard/invoices")
  /\ invoices w' = invoices twoInvoices
  /\ revalidated w' = revalidated twoInvoices ++ ["/dashboard/invoices"].
Proof.
  apply (updateInvoice_unknown_id "inv-404" noState (form "c9" "12.00" "paid") calm
           twoInvoices
           {[ "customerId" := Str "c9"; "amount" := Num (ofZ 12); "status" := Str "paid" ]}).
  - vm_compute. reflexivity.
  - reflexivity.
  - repeat constructor; discriminate.
Defined.

(** X5: once an update has gone through, submitting the same update
    again (whatever the store then does) leaves the table as the first
    one left it. *)
Theorem updateInvoice_is_idempotent
    (id : string) (prevState prevState' : State) (fd : FormData) (env env' : Env)
    (w : World) :
  sql_raises env = None ->
  let w1 := (updateInvoice id prevState fd env w).2 in
  let w2 := (updateInvoice id prevState' fd env' w1).2 in
  invoices w2 = invoices w1.
Proof.
  intros Hok. cbv zeta.
  destruct (safeParse UpdateInvoice (rawFields fd)) as [data | error] eqn:H.
  - rewrite !(updateInvoice_success_run _ _ _ _ _ _ H). cbv zeta. rewrite Hok.
    destruct (sql_raises env'); cbn [snd invoices]; [reflexivity |].
    apply apply_update_again.
  - rewrite !(updateInvoice_error_run _ _ _ _ _ _ H). reflexivity.
Qed.

Lemma updateInvoice_is_idempotent_witness :
  let w1 := (updateInvoice "inv-1" noState (form "c9" "12.00" "paid") calm twoInvoices).2 in
  let w2 := (updateInvoice "inv-1" noState (form "c9" "12.00" "paid") calm w1).2 in
  invoices w2 = invoices w1 /\ invoices w1 <> invoices twoInvoices.
Proof.
  cbv zeta. split.
  - apply (updateInvoice_is_idempotent "inv-1" noState noState
             (form "c9" "12.00" "paid") calm calm twoInvoices). reflexivity.
  - vm_compute. discriminate.
Defined.

End ActionProperties.

Section LifecycleProperties.

Import JsNumber Js Zod Sql Server Actions AuthConfig Spec.

(** X9: with the clock within the range of [Date], [createInvoice]
    ends in one of three ways and in no other: it returns the field
    errors and has touched nothing; or it has sent one statement that
    the store refused, returns "Database Error: Failed to Create
    Invoice" and has changed no row and revalidated nothing; or it has
    sent one statement that the store committed, has revalidated
    "/dashboard/invoices" and redirects there.  It never writes to the
    console. *)
Theorem createInvoice_outcomes
    (prevState : State) (fd : FormData) (env : Env) (w : World) :
  Z.abs (clock env) <= JsDate.maxTime ->
  let (outcome, w') := createInvoice prevState fd env w in
  console w' = console w
  /\ ((exists fieldErrs,
         outcome = Normal {| errors := Some fieldErrs;
                             message := Some "Missing Fields. Failed to Create Invoice." |}
         /\ w' = w)
      \/ (exists stmt,
            outcome = Normal {| errors := None;
                                message := Some "Database Error: Failed to Create Invoice" |}
            /\ issued w' = issued w ++ [stmt]
            /\ invoices w' = invoices w
            /\ revalidated w' = revalidated w)
      \/ (exists stmt,
            outcome = Throw (NEXT_REDIRECT "/dashboard/invoices")
            /\ issued w' = issued w ++ [stmt]
            /\ invoices w' = apply stmt (generated_id env) (invoices w)
            /\ revalidated w' = revalidated w ++ ["/dashboard/invoices"])).
Proof.
  intros Hclock.
  destruct (safeParse CreateInvoice (rawFields fd)) as [data | error] eqn:H.
  - rewrite (createInvoice_success_run _ _ _ _ _ H Hclock). cbv zeta.
    destruct (sql_raises env) as [msg |].
    + split; [reflexivity |]. right. left. eexists. repeat split.
    + split; [reflexivity |]. right. right. eexists. repeat split.
  - rewrite (createInvoice_error_run _ _ _ _ _ H).
    split; [reflexivity |]. left. eexists. split; reflexivity.
Qed.

Lemma createInvoice_outcomes_witness :
  let (outcome, w') := createInvoice noState (form "c1" "25.50" "pending") failing twoInvoices in
  console w' = console twoInvoices
  /\ ((exists fieldErrs,
         outcome = Normal {| errors := Some fieldErrs;
                             message := Some "Missing Fields. Failed to Create Invoice." |}
         /\ w' = twoInvoices)
      \/ (exists stmt,
            outcome = Normal {| errors := None;
                                message := Some "Database Error: Failed to Create Invoice" |}
            /\ issued w' = issued twoInvoices ++ [stmt]
            /\ invoices w' = invoices twoInvoices
            /\ revalidated w' = revalidated twoInvoices)
      \/ (exists stmt,
            outcome = Throw (NEXT_REDIRECT "/dashboard/invoices")
            /\ issued w' = issued twoInvoices ++ [stmt]
            /\ invoices w' = apply stmt (generated_id failing) (invoices twoInvoices)
            /\ revalidated w' = revalidated twoInvoices ++ ["/dashboard/invoices"])).
Proof.
  apply (createInvoice_outcomes noState (form "c1" "25.50" "pending") failing twoInvoices).
  vm_compute. discriminate.
Defined.

(** X10: whatever is submitted and whatever the clock and the store
    do, [createInvoice] keeps every stored row, in place and as it
    was, and adds at most one row at the end. *)
Theorem createInvoice_keeps_existing_rows
    (prevState : State) (fd : FormData) (env : Env) (w : World) :
  let w' := (createInvoice prevState fd env w).2 in
  invoices w `prefix_of` invoices w'
  /\ (length (invoices w') <= S (length (invoices w)))%nat.
Proof.
  cbv zeta. unfold createInvoice.
  destruct (safeParse CreateInvoice (rawFields fd)) as [data | error].
  - unfold mbind, M_bind, bind, new_Date, toISOString.
    destruct (JsDate.toISOString (JsDate.TimeClip (clock env))) as [iso |].
    + unfold ret, try_catch, sql, revalidatePath, redirect, throw.
      destruct (sql_raises env); cbn [snd invoices apply].
      * split; [reflexivity | lia].
      * split; [eexists; reflexivity |]. rewrite length_app. cbn [length]. lia.
    + cbn. split; [reflexivity | lia].
  - cbn. split; [reflexivity | lia].
Qed.

(** X6: a row created by [createInvoice] and then changed by
    [updateInvoice] under the id the store gave it carries the new
    customer, amount and status, and still the date of its creation,
    whenever the update happens. *)
Theorem creation_date_survives_update
    (prevState prevState' : State) (fd fd' : FormData) (env env' : Env) (w : World)
    (data data' : object) :
  safeParse CreateInvoice (rawFields fd) = SafeParseSuccess data ->
  safeParse UpdateInvoice (rawFields fd') = SafeParseSuccess data' ->
  Z.abs (clock env) <= JsDate.maxTime ->
  sql_raises env = None ->
  sql_raises env' = None ->
  let w1 := (createInvoice prevState fd env w).2 in
  let w2 := (updateInvoice (generated_id env) prevState' fd' env' w1).2 in
  last (invoices w2)
  = Some {| id := generated_id env; customer_id := get fd' "customerId";
            amount := Num (mul (ToNumber (get fd' "amount")) (ofZ 100));
            status := get fd' "status";
            date := Str (JsDate.utcDate (clock env)) |}.
Proof.
  intros H H' Hclock Hok Hok'. cbv zeta.
  rewrite (createInvoice_success_run _ _ _ _ _ H Hclock). cbv zeta. rewrite Hok.
  rewrite (updateInvoice_success_run _ _ _ _ _ _ H'). cbv zeta. rewrite Hok'.
  cbn [snd invoices apply].
  change UpdateInvoice with CreateInvoice in H'.
  destruct (safeParse_success _ _ H') as (_ & _ & _ & _ & -> & -> & ->).
  rewrite fmap_app. cbn [fmap list_fmap]. rewrite last_snoc.
  cbn. rewrite String.eqb_refl. reflexivity.
Qed.

Lemma creation_date_survives_update_witness :
  let later := {| clock := 1800000000000; sql_raises := None; generated_id := "inv-4";
                  identity_provider := fun _ _ => None |} in
  let w1 := (createInvoice noState (form "c1" "25.50" "pending") calm twoInvoices).2 in
  let w2 := (updateInvoice "inv-3" noState (form "c2" "30" "paid") later w1).2 in
  last (invoices w2)
  = Some {| id := "inv-3"; customer_id := Str "c2"; amount := Num (ofZ 3000);
            status := Str "paid"; date := Str "2023-11-14" |}.
Proof.
  cbv zeta.
  assert (Hv : safeParse CreateInvoice (rawFields (form "c1" "25.50" "pending"))
               = SafeParseSuccess {[ "customerId" := Str "c1";
                                     "amount" := Num (StringToNumber "25.50");
                                     "status" := Str "pending" ]})
    by (vm_compute; reflexivity).
  assert (Hv' : safeParse UpdateInvoice (rawFields (form "c2" "30" "paid"))
                = SafeParseSuccess {[ "customerId" := Str "c2"; "amount" := Num (ofZ 30);
                                      "status" := Str "paid" ]})
    by (vm_compute; reflexivity).
  etransitivity.
  { apply (creation_date_survives_update noState noState _ _ calm
             {| clock := 1800000000000; sql_raises := None; generated_id := "inv-4";
                identity_provider := fun _ _ => None |}
             twoInvoices _ _ Hv Hv'); [vm_compute; discriminate | reflexivity ..]. }
  vm_compute. reflexivity.
Defined.

(** X14: the actions read only the entries [customerId], [amount] and
    [status]: an entry of any other name (an [id] or a [date], say)
    changes nothing in what [createInvoice] and [updateInvoice] do. *)
Theorem other_entries_are_ignored
    (id : string) (prevState : State) (fd1 fd2 : FormData) (k : string)
    (v : FormDataEntryValue) (env : Env) (w : World) :
  k <> "customerId" -> k <> "amount" -> k <> "status" ->
  createInvoice prevState (fd1 ++ (k, v) :: fd2) env w
  = createInvoice prevState (fd1 ++ fd2) env w
  /\ updateInvoice id prevState (fd1 ++ (k, v) :: fd2) env w
     = updateInvoice id prevState (fd1 ++ fd2) env w.
Proof.
  intros Hc Ha Hs.
  assert (Hraw : rawFields (fd1 ++ (k, v) :: fd2) = rawFields (fd1 ++ fd2)).
  { unfold rawFields. now rewrite !get_skips. }
  unfold createInvoice, updateInvoice. rewrite Hraw. split; reflexivity.
Qed.

Lemma other_entries_are_ignored_witness :
  createInvoice noState (("id", EntryString "inv-1") :: form "c1" "25.50" "pending")
    calm twoInvoices
  = createInvoice noState (form "c1" "25.50" "pending") calm twoInvoices.
Proof.
  apply (proj1 (other_entries_are_ignored "inv-1" noState [] (form "c1" "25.50" "pending")
                  "id" (EntryString "inv-1") calm twoInvoices
                  ltac:(discriminate) ltac:(discriminate) ltac:(discriminate))).
Defined.



(** X12: when [authorized] answers with a redirect, the request came
    from a signed-in user and was not for a dashboard path, and the
    target is the path "/dashboard" on the origin of the request, with
    no query and no fragment. *)
Theorem authorized_redirect_is_same_origin
    (auth : option Session) (nextUrl url : URL) :
  authorized auth nextUrl = Response_redirect url ->
  isAuthenticated auth = true
  /\ JsString.startsWith (pathname nextUrl) "/dashboard" = false
  /\ url = {| origin := origin nextUrl; pathname := "/dashboard"; search := ""; hash := "" |}.
Proof.
  unfold authorized.
  destruct (JsString.startsWith (pathname nextUrl) "/dashboard").
  - destruct auth as [[[u |] e] |]; discriminate.
  - destruct auth as [[[u |] e] |]; cbn; try discriminate.
    intros [= <-]. repeat split.
Qed.

Lemma authorized_redirect_is_same_origin_witness :
  let alice := Some {| user := Some {| name := "Alice"; email := "alice@example.com" |};
                       expires := "2030-01-01" |} in
  let here := {| origin := "https://example.com"; pathname := "/login";
                 search := "?callbackUrl=https://evil.example"; hash := "#x" |} in
  exists url,
    authorized alice here = Response_redirect url
    /\ url = {| origin := "https://example.com"; pathname := "/dashboard";
                search := ""; hash := "" |}.
Proof.
  cbv zeta. eexists. split; [reflexivity |].
  apply (authorized_redirect_is_same_origin
           (Some {| user := Some {| name := "Alice"; email := "alice@example.com" |};
                    expires := "2030-01-01" |})
           {| origin := "https://example.com"; pathname := "/login";
              search := "?callbackUrl=https://evil.example"; hash := "#x" |}).
  reflexivity.
Defined.

(** X15: a request without a signed-in user (no session, or a session
    without a user) is denied exactly when its path is "/dashboard"
    followed by anything, and is otherwise let through. *)
Theorem unauthenticated_denied_on_dashboard_prefix
    (auth : option Session) (nextUrl : URL) :
  auth ≫= user = None ->
  (authorized auth nextUrl = Boolean false
   <-> exists rest, pathname nextUrl = "/dashboard" +:+ rest)
  /\ (authorized auth nextUrl = Boolean true
      <-> ~ exists rest, pathname nextUrl = "/dashboard" +:+ rest).
Proof.
  intros Hout. unfold authorized. rewrite Hout.
  rewrite <- startsWith_spec.
  destruct (JsString.startsWith (pathname nextUrl) "/dashboard"); split; split;
    try discriminate; try reflexivity; congruence.
Qed.

Lemma unauthenticated_denied_on_dashboard_prefix_witness :
  let at_ (p : string) := {| origin := "https://example.com"; pathname := p;
                             search := ""; hash := "" |} in
  authorized (Some {| user := None; expires := "2030-01-01" |}) (at_ "/dashboard-old")
  = Boolean false
  /\ authorized None (at_ "/Dashboard") = Boolean true.
Proof.
  cbv zeta. split.
  - apply (proj1 (unauthenticated_denied_on_dashboard_prefix
                    (Some {| user := None; expires := "2030-01-01" |}) _ eq_refl)).
    exists "-old". reflexivity.
  - apply (proj2 (unauthenticated_denied_on_dashboard_prefix None _ eq_refl)).
    intros [rest H]. discriminate H.
Defined.

End LifecycleProperties.

Section EmptyInputs.

Import JsNumber Js Zod Sql Server Actions Spec.

(** The other two rules do reject an empty string: only [customerId]
    lets it through. *)
Example empty_amount_and_status_are_rejected :
  (exists error,
     safeParse CreateInvoice (rawFields (form "c1" "" "paid")) = SafeParseError error
     /\ fieldErrors error
        = {[ "amount" := ["Please enter an amount greater tahn $0."] ]})
  /\ (exists error,
        safeParse CreateInvoice (rawFields (form "c1" "50" "")) = SafeParseError error
        /\ fieldErrors error
           = {[ "status" := ["Invalid enum value. Expected 'pending' | 'paid', received ''"] ]})
  /\ (exists data,
        safeParse CreateInvoice (rawFields (form "" "50" "paid")) = SafeParseSuccess data).
Proof.
  split; [| split]; eexists; try split; vm_compute; reflexivity.
Qed.

End EmptyInputs.
